(** * Compliance resolver and documentation score of the property backend

    A shallow embedding of [src/models/property_types.py] (the rule table
    [get_applicable_compliance_items], the score calculator
    [calculate_documentation_score] and the gap detector
    [identify_documentation_gaps]) and of the routes of
    [src/routes/property_types.py] that call them: the read endpoint
    [get_documentation_score], the listing [get_property_types], the
    creation route [create_enhanced_property], the two routes on child
    rows, [update_compliance_item] and [resolve_documentation_gap], and,
    for its mark on the property, the council import
    [import_council_data].

    The database is an explicit state: the property table is a finite map
    keyed by primary key, the two child tables are row lists in insertion
    order.  The records hold the columns the functions above read or
    compute with; time stamps and the free-text columns of the child rows
    are left out, and no statement is made about them.  Python floats are
    IEEE binary64 values, computed with the standard library's executable
    specification [SpecFloat]. *)

From Stdlib Require Import ZArith List String Bool Lia.
From Stdlib Require Import Floats.SpecFloat.
From stdpp Require Import gmap.
Import ListNotations.

Local Open Scope string_scope.
Local Open Scope list_scope.
Local Open Scope Z_scope.

(** ** Python numbers *)

Module Py.

(** Python's [float] is binary64: 53 bits of mantissa, infinities at
    exponent 1024. *)
Definition prec : Z := 53.
Definition emax : Z := 1024.

Definition float : Type := spec_float.

(** [float(z)], rounded to nearest even as CPython does. *)
Definition of_int (z : Z) : float := binary_normalize prec emax z 0 false.

(** The integer [z] as an exact, not yet rounded, mantissa. *)
Definition exact (z : Z) : float :=
  match z with
  | Z0 => S754_zero false
  | Zpos p => S754_finite false p 0
  | Zneg p => S754_finite true p 0
  end.

Inductive exn : Type :=
| ZeroDivisionError
| NotFound
| OverflowError.

Inductive outcome (A : Type) : Type :=
| Returns (a : A)
| Raises (e : exn).
Arguments Returns {A} a.
Arguments Raises {A} e.

Definition bind {A B : Type} (m : outcome A) (k : A -> outcome B) : outcome B :=
  match m with
  | Returns a => k a
  | Raises e => Raises e
  end.

(** [a / b] on two [int]s: true division.  CPython rounds the exact
    quotient of the two integers once; [SFdiv] does the same from the two
    exact mantissas.  A zero divisor raises.  (CPython also raises
    OverflowError when the quotient exceeds the float range, beyond
    2^1024; row counts never get there and the model returns the
    infinity.) *)
Definition truediv (a b : Z) : outcome float :=
  if b =? 0 then Raises ZeroDivisionError
  else Returns (SFdiv prec emax (exact a) (exact b)).

(** [x * n] for a float [x] and an int [n]: the int is converted first. *)
Definition mul_int (x : float) (n : Z) : float :=
  SFmul prec emax x (of_int n).

(** A JSON number as Python holds it: the literals [0] and [100] of the
    read endpoint are ints, computed ratios are floats. *)
Inductive number : Type :=
| Int (z : Z)
| Float (x : float).



Definition leb (x y : float) : bool := SFleb x y.

End Py.

(** Sequencing of calls that may raise, in stdpp's monad notation. *)
#[global] Instance outcome_ret : MRet Py.outcome := fun _ a => Py.Returns a.
#[global] Instance outcome_bind : MBind Py.outcome := fun _ _ k m => Py.bind m k.

(** The float literals of the source. *)
Definition f0 : Py.float := S754_zero false.
Definition f100 : Py.float := Eval vm_compute in Py.of_int 100.

(** ** Enumerations *)

Inductive PropertyType : Type :=
| FREESTANDING_HOUSE
| SECTIONAL_TITLE_APARTMENT
| SECTIONAL_TITLE_TOWNHOUSE
| CLUSTER_HOME
| COMMERCIAL_OFFICE
| RETAIL_SPACE
| SHOPPING_MALL
| SCHOOL
| HOSPITAL
| INDUSTRIAL
| VACANT_LAND.

Inductive OwnershipType : Type :=
| INDIVIDUAL
| SECTIONAL_TITLE
| SHARE_BLOCK
| COMPANY
| TRUST
| BODY_CORPORATE.

Inductive FloorLevel : Type :=
| GROUND_FLOOR
| MIDDLE_FLOOR
| TOP_FLOOR
| PENTHOUSE
| BASEMENT.

(** ** Rows *)

(** The dictionaries built by the rule table. *)
Module Requirement.
Record t : Type := mk {
  name : string;
  category : string;
  individual_responsibility : bool
}.
End Requirement.

(** A row of [enhanced_properties].  The primary key is the key of the
    table map.  The record is the projection of the row on the columns
    below: the remaining descriptive columns (council numbers, areas,
    bedrooms, levy) and the timestamps [created_at] and [updated_at], which
    the ORM stamps when a row is written, are left out, and the model says
    nothing about them. *)
Module EnhancedProperty.
Record t : Type := mk {
  user_id : Z;
  name : string;
  address : string;
  property_type : PropertyType;
  ownership_type : OwnershipType;
  floor_level : option FloorLevel;
  documentation_score : Py.float;
  council_data_imported : bool;
  is_active : bool
}.

Definition set_documentation_score (p : t) (score : Py.float) : t :=
  {| user_id := user_id p;
     name := name p;
     address := address p;
     property_type := property_type p;
     ownership_type := ownership_type p;
     floor_level := floor_level p;
     documentation_score := score;
     council_data_imported := council_data_imported p;
     is_active := is_active p |}.

End EnhancedProperty.

(** A row of [compliance_items], projected on the columns below: the
    certificate number, the issuing authority, the inspection dates, the
    document path and the timestamps, which the update route assigns, are
    left out. *)
Module ComplianceItem.
Record t : Type := mk {
  property_id : Z;
  name : string;
  category : string;
  is_individual_responsibility : bool;
  responsible_party : string;
  is_required : bool;
  is_compliant : bool
}.

Definition set_is_compliant (it : t) (b : bool) : t :=
  {| property_id := property_id it;
     name := name it;
     category := category it;
     is_individual_responsibility := is_individual_responsibility it;
     responsible_party := responsible_party it;
     is_required := is_required it;
     is_compliant := b |}.
End ComplianceItem.

(** A row of [property_documentation_gaps], projected on the columns
    below: the resolution date, notes and costs, which the resolution route
    assigns, and the timestamps are left out. *)
Module PropertyDocumentationGap.
Record t : Type := mk {
  property_id : Z;
  gap_type : string;
  description : string;
  severity : string;
  is_resolved : bool
}.
End PropertyDocumentationGap.

(** ** The database *)

Record db : Type := mkdb {
  properties : gmap Z EnhancedProperty.t;
  compliance_items : list ComplianceItem.t;
  documentation_gaps : list PropertyDocumentationGap.t
}.

(** ** The rule table *)

Definition req (n c : string) (i : bool) : Requirement.t :=
  Requirement.mk n c i.

Definition get_applicable_compliance_items
    (property_type : PropertyType) (ownership_type : OwnershipType)
    (floor_level : option FloorLevel) : list Requirement.t :=
  match property_type with
  | FREESTANDING_HOUSE =>
      [ req "Electrical COC" "electrical" true;
        req "Plumbing COC" "plumbing" true;
        req "Gas COC" "gas" true;
        req "Roof Inspection" "structural" true;
        req "Pool COC" "safety" true ]
  | SECTIONAL_TITLE_APARTMENT | SECTIONAL_TITLE_TOWNHOUSE =>
      let base_requirements :=
        [ req "Unit Electrical COC" "electrical" true;
          req "Unit Plumbing COC" "plumbing" true;
          req "Common Area Electrical" "electrical" false;
          req "Building Structural" "structural" false ] in
      match floor_level with
      | Some TOP_FLOOR =>
          base_requirements ++ [ req "Roof Access COC" "structural" true ]
      | Some GROUND_FLOOR =>
          base_requirements ++ [ req "Foundation Inspection" "structural" false ]
      | _ => base_requirements
      end
  | COMMERCIAL_OFFICE =>
      [ req "Fire Safety COC" "safety" true;
        req "Occupancy Certificate" "legal" true;
        req "HVAC System COC" "mechanical" true;
        req "Accessibility Compliance" "accessibility" true ]
  | SCHOOL =>
      [ req "Fire Safety COC" "safety" true;
        req "Playground Safety" "safety" true;
        req "Food Service COC" "health" true;
        req "Transportation Safety" "safety" true;
        req "Accessibility Compliance" "accessibility" true ]
  | HOSPITAL =>
      [ req "Medical Gas Systems" "medical" true;
        req "Emergency Power Systems" "electrical" true;
        req "Infection Control Systems" "health" true;
        req "Waste Management COC" "environmental" true;
        req "Radiation Safety" "safety" true ]
  | _ => []
  end.

(** ** Queries and the session *)

(** [ComplianceItem.query.filter_by(property_id=...)]. *)
Definition items_of (st : db) (property_id : Z) : list ComplianceItem.t :=
  List.filter (fun it => ComplianceItem.property_id it =? property_id)
    (compliance_items st).

(** [ComplianceItem.query.filter_by(property_id=..., is_compliant=True)]. *)
Definition compliant_items_of (st : db) (property_id : Z)
    : list ComplianceItem.t :=
  List.filter
    (fun it => (ComplianceItem.property_id it =? property_id)
               && ComplianceItem.is_compliant it)
    (compliance_items st).

(** [PropertyDocumentationGap.query.filter_by(property_id=...)]. *)
Definition gaps_of (st : db) (property_id : Z)
    : list PropertyDocumentationGap.t :=
  List.filter (fun g => PropertyDocumentationGap.property_id g =? property_id)
    (documentation_gaps st).

(** [... .filter_by(property_id=..., is_resolved=True)]. *)
Definition resolved_gaps_of (st : db) (property_id : Z)
    : list PropertyDocumentationGap.t :=
  List.filter
    (fun g => (PropertyDocumentationGap.property_id g =? property_id)
              && PropertyDocumentationGap.is_resolved g)
    (documentation_gaps st).

(** [.count()]. *)
Definition count {A : Type} (rows : list A) : Z := Z.of_nat (length rows).

(** An integer column, and an integer bound to a query, holds a signed
    64-bit value (SQLite, the database [main.py] falls back to): a Python
    int outside that range raises OverflowError where it is bound. *)
Definition fits_integer_column (z : Z) : bool :=
  (- 2 ^ 63 <=? z) && (z <? 2 ^ 63).

(** Committing a property object whose attributes were assigned. *)
Definition commit_property (st : db) (property_id : Z)
    (property_obj : EnhancedProperty.t) : db :=
  mkdb (<[property_id := property_obj]> (properties st))
       (compliance_items st) (documentation_gaps st).

(** [db.session.add(gap)]; the row is appended to its table. *)
Definition session_add_gap (st : db) (gap : PropertyDocumentationGap.t) : db :=
  mkdb (properties st) (compliance_items st) (documentation_gaps st ++ [gap]).

(** The rule table at the classification of a stored property. *)
Definition required_items_of (property_obj : EnhancedProperty.t)
    : list Requirement.t :=
  get_applicable_compliance_items
    (EnhancedProperty.property_type property_obj)
    (EnhancedProperty.ownership_type property_obj)
    (EnhancedProperty.floor_level property_obj).

(** ** The score calculator *)

Definition calculate_documentation_score (st : db) (property_id : Z)
    : Py.outcome (Py.float * db) :=
  match properties st !! property_id with
  | None => mret (f0, st)
  | Some property_obj =>
      let required_items := required_items_of property_obj in
      match required_items with
      | [] => mret (f100, st)
      | _ :: _ =>
          let compliant_count := count (compliant_items_of st property_id) in
          q ← Py.truediv compliant_count (count required_items);
          let score := Py.mul_int q 100 in
          mret (score,
                commit_property st property_id
                  (EnhancedProperty.set_documentation_score property_obj score))
      end
  end.

(** ** The gap detector *)

(** [x in names] on a list of strings. *)
Definition contains (names : list string) (x : string) : bool :=
  existsb (String.eqb x) names.

(** The [PropertyDocumentationGap(...)] constructor call of the detector;
    [is_resolved] takes its column default. *)
Definition missing_compliance_gap (property_id : Z)
    (required_item : Requirement.t) : PropertyDocumentationGap.t :=
  PropertyDocumentationGap.mk
    property_id
    "missing_compliance"
    (String.append "Missing "
       (String.append (Requirement.name required_item)
          (String.append " for "
             (String.append (Requirement.category required_item)
                " compliance"))))
    (if Requirement.individual_responsibility required_item
     then "high" else "medium")
    false.

Definition identify_documentation_gaps (st : db) (property_id : Z)
    : list PropertyDocumentationGap.t * db :=
  match properties st !! property_id with
  | None => ([], st)
  | Some property_obj =>
      let required_items := required_items_of property_obj in
      let existing_items := items_of st property_id in
      let existing_names := List.map ComplianceItem.name existing_items in
      let gaps :=
        fold_left
          (fun gaps required_item =>
             if negb (contains existing_names (Requirement.name required_item))
             then gaps ++ [missing_compliance_gap property_id required_item]
             else gaps)
          required_items [] in
      (gaps, fold_left session_add_gap gaps st)
  end.

(** ** The read endpoint *)

Module ScoreResponse.
(** The JSON body; [last_updated], an ORM timestamp, is left out. *)
Record t : Type := mk {
  property_id : Z;
  documentation_score : Py.float;
  total_items : Z;
  compliant_items : Z;
  compliance_percentage : Py.number;
  total_gaps : Z;
  resolved_gaps : Z;
  resolution_percentage : Py.number;
  council_data_imported : bool
}.
End ScoreResponse.

(** [(part / total * 100) if total > 0 else otherwise]. *)
Definition percentage_or (part total : Z) (otherwise : Z)
    : Py.outcome Py.number :=
  if 0 <? total
  then q ← Py.truediv part total; mret (Py.Float (Py.mul_int q 100))
  else mret (Py.Int otherwise).

Definition get_documentation_score (st : db) (property_id : Z)
    : Py.outcome (ScoreResponse.t * db) :=
  match properties st !! property_id with
  | None =>
      (* [get_or_404]: 404, or the OverflowError of a key that cannot be
         bound to the query. *)
      if fits_integer_column property_id
      then Py.Raises Py.NotFound
      else Py.Raises Py.OverflowError
  | Some property_obj =>
      let total_items := count (items_of st property_id) in
      let compliant_items := count (compliant_items_of st property_id) in
      let total_gaps := count (gaps_of st property_id) in
      let resolved_gaps := count (resolved_gaps_of st property_id) in
      '(current_score, st') ← calculate_documentation_score st property_id;
      compliance_percentage ← percentage_or compliant_items total_items 0;
      resolution_percentage ← percentage_or resolved_gaps total_gaps 100;
      (* [council_data_imported] is read back after the commit; the
         calculator assigns the score only, so the loaded value stands. *)
      mret (ScoreResponse.mk property_id current_score
              total_items compliant_items compliance_percentage
              total_gaps resolved_gaps resolution_percentage
              (EnhancedProperty.council_data_imported property_obj),
            st')
  end.

(** ** Sample databases *)

Module Sample.

Definition property (property_type : PropertyType)
    (ownership_type : OwnershipType) (floor_level : option FloorLevel)
    : EnhancedProperty.t :=
  EnhancedProperty.mk 7 "Unit 3" "12 Loop Street" property_type
    ownership_type floor_level f0 false true.

(** The row the creation route stores for a requirement, with a chosen
    compliance flag. *)
Definition item (property_id : Z) (r : Requirement.t) (compliant : bool)
    : ComplianceItem.t :=
  ComplianceItem.mk property_id (Requirement.name r) (Requirement.category r)
    (Requirement.individual_responsibility r)
    (if Requirement.individual_responsibility r
     then "Owner" else "Body Corporate")
    true compliant.

Definition items (property_id : Z) (rs : list Requirement.t)
    (flags : list bool) : list ComplianceItem.t :=
  zip_with (item property_id) rs flags.

Definition hospital_rules : list Requirement.t :=
  get_applicable_compliance_items HOSPITAL INDIVIDUAL None.
Definition office_rules : list Requirement.t :=
  get_applicable_compliance_items COMMERCIAL_OFFICE COMPANY None.
Definition house_rules : list Requirement.t :=
  get_applicable_compliance_items FREESTANDING_HOUSE INDIVIDUAL None.

(** A hospital with its five rows, two of them compliant, and no gap row. *)
Definition hospital_db : db :=
  mkdb {[ 1 := property HOSPITAL INDIVIDUAL None ]}
       (items 1 hospital_rules [true; false; true; false; false]) [].

(** A cluster home: no rule applies to it. *)
Definition cluster_db : db :=
  mkdb {[ 1 := property CLUSTER_HOME INDIVIDUAL None ]} [] [].

(** An office with three of its four rows, of mixed status; the HVAC row
    was never created. *)
Definition office_db : db :=
  mkdb {[ 1 := property COMMERCIAL_OFFICE COMPANY None ]}
       (items 1
          [ req "Fire Safety COC" "safety" true;
            req "Occupancy Certificate" "legal" true;
            req "Accessibility Compliance" "accessibility" true ]
          [true; false; true]) [].

(** A top-floor apartment and a house, both without any row yet. *)
Definition fresh_db : db :=
  mkdb {[ 1 := property SECTIONAL_TITLE_APARTMENT SECTIONAL_TITLE
                 (Some TOP_FLOOR);
          2 := property FREESTANDING_HOUSE INDIVIDUAL None ]} [] [].


(** A hospital with a single row, compliant. *)
Definition single_row_db : db :=
  mkdb {[ 1 := property HOSPITAL INDIVIDUAL None ]}
       (items 1 hospital_rules [true]) [].

End Sample.

(** ** Enumeration values and the listing endpoint *)

Definition property_type_members : list PropertyType :=
  [ FREESTANDING_HOUSE; SECTIONAL_TITLE_APARTMENT; SECTIONAL_TITLE_TOWNHOUSE;
    CLUSTER_HOME; COMMERCIAL_OFFICE; RETAIL_SPACE; SHOPPING_MALL; SCHOOL;
    HOSPITAL; INDUSTRIAL; VACANT_LAND ].

Definition ownership_type_members : list OwnershipType :=
  [ INDIVIDUAL; SECTIONAL_TITLE; SHARE_BLOCK; COMPANY; TRUST; BODY_CORPORATE ].

Definition floor_level_members : list FloorLevel :=
  [ GROUND_FLOOR; MIDDLE_FLOOR; TOP_FLOOR; PENTHOUSE; BASEMENT ].

(** [member.value]. *)
Definition property_type_value (pt : PropertyType) : string :=
  match pt with
  | FREESTANDING_HOUSE => "freestanding_house"
  | SECTIONAL_TITLE_APARTMENT => "sectional_title_apartment"
  | SECTIONAL_TITLE_TOWNHOUSE => "sectional_title_townhouse"
  | CLUSTER_HOME => "cluster_home"
  | COMMERCIAL_OFFICE => "commercial_office"
  | RETAIL_SPACE => "retail_space"
  | SHOPPING_MALL => "shopping_mall"
  | SCHOOL => "school"
  | HOSPITAL => "hospital"
  | INDUSTRIAL => "industrial"
  | VACANT_LAND => "vacant_land"
  end.

Definition ownership_type_value (ot : OwnershipType) : string :=
  match ot with
  | INDIVIDUAL => "individual"
  | SECTIONAL_TITLE => "sectional_title"
  | SHARE_BLOCK => "share_block"
  | COMPANY => "company"
  | TRUST => "trust"
  | BODY_CORPORATE => "body_corporate"
  end.

Definition floor_level_value (fl : FloorLevel) : string :=
  match fl with
  | GROUND_FLOOR => "ground_floor"
  | MIDDLE_FLOOR => "middle_floor"
  | TOP_FLOOR => "top_floor"
  | PENTHOUSE => "penthouse"
  | BASEMENT => "basement"
  end.

(** [member.name]. *)
Definition property_type_name (pt : PropertyType) : string :=
  match pt with
  | FREESTANDING_HOUSE => "FREESTANDING_HOUSE"
  | SECTIONAL_TITLE_APARTMENT => "SECTIONAL_TITLE_APARTMENT"
  | SECTIONAL_TITLE_TOWNHOUSE => "SECTIONAL_TITLE_TOWNHOUSE"
  | CLUSTER_HOME => "CLUSTER_HOME"
  | COMMERCIAL_OFFICE => "COMMERCIAL_OFFICE"
  | RETAIL_SPACE => "RETAIL_SPACE"
  | SHOPPING_MALL => "SHOPPING_MALL"
  | SCHOOL => "SCHOOL"
  | HOSPITAL => "HOSPITAL"
  | INDUSTRIAL => "INDUSTRIAL"
  | VACANT_LAND => "VACANT_LAND"
  end.

Definition ownership_type_name (ot : OwnershipType) : string :=
  match ot with
  | INDIVIDUAL => "INDIVIDUAL"
  | SECTIONAL_TITLE => "SECTIONAL_TITLE"
  | SHARE_BLOCK => "SHARE_BLOCK"
  | COMPANY => "COMPANY"
  | TRUST => "TRUST"
  | BODY_CORPORATE => "BODY_CORPORATE"
  end.

Definition floor_level_name (fl : FloorLevel) : string :=
  match fl with
  | GROUND_FLOOR => "GROUND_FLOOR"
  | MIDDLE_FLOOR => "MIDDLE_FLOOR"
  | TOP_FLOOR => "TOP_FLOOR"
  | PENTHOUSE => "PENTHOUSE"
  | BASEMENT => "BASEMENT"
  end.

(** [PropertyType(value)]: the member with that value; [None] stands for
    the ValueError of a value no member has. *)
Definition property_type_of_value (value : string) : option PropertyType :=
  List.find (fun pt => String.eqb (property_type_value pt) value)
    property_type_members.

Definition ownership_type_of_value (value : string) : option OwnershipType :=
  List.find (fun ot => String.eqb (ownership_type_value ot) value)
    ownership_type_members.

Definition floor_level_of_value (value : string) : option FloorLevel :=
  List.find (fun fl => String.eqb (floor_level_value fl) value)
    floor_level_members.

Module EnumEntry.
Record t : Type := mk {
  value : string;
  name : string
}.
End EnumEntry.

Module PropertyTypesResponse.
Record t : Type := mk {
  property_types : list EnumEntry.t;
  ownership_types : list EnumEntry.t;
  floor_levels : list EnumEntry.t
}.
End PropertyTypesResponse.

Definition get_property_types : PropertyTypesResponse.t :=
  PropertyTypesResponse.mk
    (List.map
       (fun pt => EnumEntry.mk (property_type_value pt) (property_type_name pt))
       property_type_members)
    (List.map
       (fun ot =>
          EnumEntry.mk (ownership_type_value ot) (ownership_type_name ot))
       ownership_type_members)
    (List.map
       (fun fl => EnumEntry.mk (floor_level_value fl) (floor_level_name fl))
       floor_level_members).

(** ** The creation route *)

(** The keys of the request body that reach the columns of the row model;
    [None] is an absent key.  The other keys are read with [data.get] into
    columns the model leaves out. *)
Module CreateRequest.
Record t : Type := mk {
  user_id : option Z;
  name : option string;
  address : option string;
  property_type : option string;
  ownership_type : option string;
  floor_level : option string
}.
End CreateRequest.

(** The response: 201 with the new key and the number of compliance items,
    or 400 when anything raised inside the [try]. *)
Inductive CreateResponse : Type :=
| Created (property_id : Z) (compliance_items_created : Z)
| BadRequest.

(** The [EnhancedProperty(...)] constructor call: [data[...]] raises on an
    absent key, an enumeration call on an unknown value; [floor_level] is
    converted only when present and not empty.  The score, the council flag
    and the active flag take their column defaults. *)
Definition new_enhanced_property (data : CreateRequest.t)
    : option EnhancedProperty.t :=
  user_id ← CreateRequest.user_id data;
  name ← CreateRequest.name data;
  address ← CreateRequest.address data;
  property_type ← CreateRequest.property_type data
                    ≫= property_type_of_value;
  ownership_type ← CreateRequest.ownership_type data
                     ≫= ownership_type_of_value;
  floor_level ← match CreateRequest.floor_level data with
                | None => Some None
                | Some value =>
                    if String.eqb value ""
                    then Some None
                    else Some <$> floor_level_of_value value
                end;
  Some (EnhancedProperty.mk user_id name address property_type
          ownership_type floor_level f0 false true).

(** [db.session.add(property_obj)] and the flush that gives it its key. *)
Definition session_add_property (st : db) (property_id : Z)
    (property_obj : EnhancedProperty.t) : db :=
  mkdb (<[property_id := property_obj]> (properties st))
       (compliance_items st) (documentation_gaps st).

(** [db.session.add(compliance_item)]. *)
Definition session_add_item (st : db) (item : ComplianceItem.t) : db :=
  mkdb (properties st) (compliance_items st ++ [item]) (documentation_gaps st).

(** The [ComplianceItem(...)] constructor call of the creation route. *)
Definition new_compliance_item (property_id : Z) (req : Requirement.t)
    : ComplianceItem.t :=
  ComplianceItem.mk property_id (Requirement.name req)
    (Requirement.category req)
    (Requirement.individual_responsibility req)
    (if Requirement.individual_responsibility req
     then "Owner" else "Body Corporate")
    true false.

(** [new_id] is the primary key the database hands out at the flush; the
    flush raises when [user_id] does not fit its column.  The detector and
    the calculator commit; an exception after them rolls back to what they
    committed, one before them to the database as it was. *)
Definition create_enhanced_property (st : db) (new_id : Z)
    (data : CreateRequest.t) : CreateResponse * db :=
  match new_enhanced_property data with
  | None => (BadRequest, st)
  | Some property_obj =>
      if negb (fits_integer_column (EnhancedProperty.user_id property_obj))
      then (BadRequest, st)
      else
      let st1 := session_add_property st new_id property_obj in
      let compliance_requirements := required_items_of property_obj in
      let st2 :=
        fold_left
          (fun st req => session_add_item st (new_compliance_item new_id req))
          compliance_requirements st1 in
      let '(_, st3) := identify_documentation_gaps st2 new_id in
      match calculate_documentation_score st3 new_id with
      | Py.Raises _ => (BadRequest, st3)
      | Py.Returns (_, st4) =>
          (Created new_id (count compliance_requirements), st4)
      end
  end.

(** ** The update and the resolution routes *)

(** A child row is addressed by its primary key; rows of the two child
    tables are only ever appended, and the model takes the position of a
    row in its table for its key.  A key of the path that cannot be bound
    to the query names no row: the query raises, which no handler
    catches. *)

(** The body of an update, a JSON object; [None] is an absent key. *)
Module UpdateRequest.
Record t : Type := mk {
  is_compliant : option bool;
  certificate_number : option string;
  issuing_authority : option string;
  last_inspection_date : option string;
  next_inspection_date : option string;
  document_path : option string
}.
End UpdateRequest.

(** 200 with the recalculated score, 404 from [first_or_404], or 500 for an
    exception no handler catches. *)
Inductive RecalculationResponse : Type :=
| Recalculated (new_documentation_score : Py.float)
| RowNotFound
| ServerError.

(** The answer when the keys of the path select no row: 404, or 500 when
    one of them cannot be bound to the query. *)
Definition row_not_found (property_id : Z) (row_id : nat)
    : RecalculationResponse :=
  if fits_integer_column property_id
     && fits_integer_column (Z.of_nat row_id)
  then RowNotFound else ServerError.

(** [ComplianceItem.query.filter_by(id=..., property_id=...).first()]. *)
Definition find_compliance_item (st : db) (property_id : Z)
    (compliance_id : nat) : option ComplianceItem.t :=
  item ← compliance_items st !! compliance_id;
  if ComplianceItem.property_id item =? property_id then Some item else None.

(** [PropertyDocumentationGap.query.filter_by(id=..., property_id=...)
    .first()]. *)
Definition find_gap (st : db) (property_id : Z) (gap_id : nat)
    : option PropertyDocumentationGap.t :=
  gap ← documentation_gaps st !! gap_id;
  if PropertyDocumentationGap.property_id gap =? property_id
  then Some gap else None.

(** Whether the date keys present in the body are accepted by
    [datetime.fromisoformat], given as [fromisoformat_ok]. *)
Definition dates_parse (fromisoformat_ok : string -> bool)
    (data : UpdateRequest.t) : bool :=
  match UpdateRequest.last_inspection_date data with
  | Some s => fromisoformat_ok s
  | None => true
  end
  && match UpdateRequest.next_inspection_date data with
     | Some s => fromisoformat_ok s
     | None => true
     end.

(** The certificate number, the issuing authority, the dates, the document
    path and the [updated_at] stamp are assigned to columns the row model
    leaves out; of the assignments only [is_compliant] shows in the model.
    A date that does not parse raises before the commit. *)
Definition update_compliance_item (fromisoformat_ok : string -> bool)
    (st : db) (property_id : Z) (compliance_id : nat)
    (data : UpdateRequest.t) : RecalculationResponse * db :=
  match find_compliance_item st property_id compliance_id with
  | None => (row_not_found property_id compliance_id, st)
  | Some compliance_item =>
      if dates_parse fromisoformat_ok data then
        let compliance_item :=
          match UpdateRequest.is_compliant data with
          | Some b => ComplianceItem.set_is_compliant compliance_item b
          | None => compliance_item
          end in
        let st1 :=
          mkdb (properties st)
               (<[compliance_id := compliance_item]> (compliance_items st))
               (documentation_gaps st) in
        match calculate_documentation_score st1 property_id with
        | Py.Returns (new_score, st2) => (Recalculated new_score, st2)
        | Py.Raises _ => (ServerError, st1)
        end
      else (ServerError, st)
  end.

(** The body of a resolution, when it is a JSON object; [None] is an absent
    key. *)
Module ResolveRequest.
Record t : Type := mk {
  resolution_notes : option string;
  actual_cost_to_resolve : option Py.number
}.
End ResolveRequest.

(** [gap.is_resolved = True]; the resolution date, notes and cost go to
    columns the row model leaves out. *)
Definition resolve_gap (gap : PropertyDocumentationGap.t)
    : PropertyDocumentationGap.t :=
  PropertyDocumentationGap.mk
    (PropertyDocumentationGap.property_id gap)
    (PropertyDocumentationGap.gap_type gap)
    (PropertyDocumentationGap.description gap)
    (PropertyDocumentationGap.severity gap)
    true.

(** [data] is what [request.get_json()] returned: an object, or [None] for
    any other JSON value (null, a list, a number), on which [data.get]
    raises after the gap was marked and before the commit, so that nothing
    is stored. *)
Definition resolve_documentation_gap (st : db) (property_id : Z)
    (gap_id : nat) (data : option ResolveRequest.t)
    : RecalculationResponse * db :=
  match find_gap st property_id gap_id with
  | None => (row_not_found property_id gap_id, st)
  | Some gap =>
      match data with
      | None => (ServerError, st)
      | Some _ =>
          let st1 :=
            mkdb (properties st) (compliance_items st)
                 (<[gap_id := resolve_gap gap]> (documentation_gaps st)) in
          match calculate_documentation_score st1 property_id with
          | Py.Returns (new_score, st2) => (Recalculated new_score, st2)
          | Py.Raises _ => (ServerError, st1)
          end
      end
  end.

(** ** The council import *)



(** ** The databases the routes produce *)



(** ** Sample requests *)

Module Scenario.

Definition empty_db : db := mkdb ∅ [] [].

Definition apartment_request : CreateRequest.t :=
  CreateRequest.mk (Some 7) (Some "Unit 3") (Some "12 Loop Street")
    (Some "sectional_title_apartment") (Some "sectional_title")
    (Some "top_floor").



Definition mark_compliant : UpdateRequest.t :=
  UpdateRequest.mk (Some true) (Some "COC-2291") None None None None.

Definition bad_date : UpdateRequest.t :=
  UpdateRequest.mk (Some true) None None (Some "next week") None None.

Definition iso_ok (s : string) : bool := String.eqb s "2024-05-01".

Definition resolution : ResolveRequest.t :=
  ResolveRequest.mk (Some "certificate filed") None.


(** The database after the apartment of [apartment_request] was created
    with key 1. *)
Definition apartment_db : db :=
  snd (create_enhanced_property empty_db 1 apartment_request).

(** An office with a gap row recorded for its missing HVAC certificate. *)
Definition office_with_gap_db : db :=
  snd (identify_documentation_gaps Sample.office_db 1).

End Scenario.

(** ** Lemmas on the embedding *)

Section Loops.

Context {A B : Type}.

(** A loop that appends the image of the selected elements. *)
Lemma fold_left_select (p : A -> bool) (f : A -> B) (l : list A) :
  forall acc,
    fold_left (fun acc x => if p x then acc ++ [f x] else acc) l acc
    = acc ++ List.map f (List.filter p l).
Proof.
  induction l as [|x l IH]; intros acc; simpl.
  - now rewrite app_nil_r.
  - rewrite IH. destruct (p x); simpl; [|reflexivity].
    now rewrite <- app_assoc.
Qed.

End Loops.

Lemma fold_left_session_add_gap (gaps : list PropertyDocumentationGap.t) :
  forall st,
    fold_left session_add_gap gaps st
    = mkdb (properties st) (compliance_items st)
           (documentation_gaps st ++ gaps).
Proof.
  induction gaps as [|g gaps IH]; intros st; simpl.
  - rewrite app_nil_r. now destruct st.
  - rewrite IH. simpl. now rewrite <- app_assoc.
Qed.

(** The detector in closed form: the missing requirements, in rule order,
    become gap rows that are appended to the gap table. *)
Lemma identify_documentation_gaps_eq st property_id property_obj :
  properties st !! property_id = Some property_obj ->
  let existing_names :=
    List.map ComplianceItem.name (items_of st property_id) in
  let gaps :=
    List.map (missing_compliance_gap property_id)
      (List.filter
         (fun r => negb (contains existing_names (Requirement.name r)))
         (required_items_of property_obj)) in
  identify_documentation_gaps st property_id
  = (gaps, mkdb (properties st) (compliance_items st)
                (documentation_gaps st ++ gaps)).
Proof.
  intros Hget. unfold identify_documentation_gaps. rewrite Hget.
  cbv zeta.
  rewrite (fold_left_select
             (fun r => negb (contains
                (List.map ComplianceItem.name (items_of st property_id))
                (Requirement.name r)))
             (missing_compliance_gap property_id)).
  simpl. now rewrite fold_left_session_add_gap.
Qed.

Lemma contains_In (names : list string) (x : string) :
  contains names x = true <-> In x names.
Proof.
  unfold contains. rewrite existsb_exists. split.
  - intros (y & Hy & Heq). apply String.eqb_eq in Heq. now subst.
  - intros Hin. exists x. split; [exact Hin | apply String.eqb_refl].
Qed.

Lemma required_items_of_set_score property_obj score :
  required_items_of
    (EnhancedProperty.set_documentation_score property_obj score)
  = required_items_of property_obj.
Proof. reflexivity. Qed.

(** The calculator on a property whose rule table is not empty. *)
Lemma calculate_documentation_score_eq st property_id property_obj :
  properties st !! property_id = Some property_obj ->
  required_items_of property_obj <> [] ->
  let score :=
    Py.mul_int
      (SFdiv Py.prec Py.emax
         (Py.exact (count (compliant_items_of st property_id)))
         (Py.exact (count (required_items_of property_obj))))
      100 in
  calculate_documentation_score st property_id
  = Py.Returns
      (score,
       commit_property st property_id
         (EnhancedProperty.set_documentation_score property_obj score)).
Proof.
  intros Hget Hne. unfold calculate_documentation_score. rewrite Hget.
  destruct (required_items_of property_obj) as [|r rs] eqn:Hreq;
    [congruence|].
  unfold Py.truediv, count.
  replace (Z.of_nat (length (r :: rs)) =? 0) with false
    by (symmetry; apply Z.eqb_neq; simpl length; lia).
  reflexivity.
Qed.

(** The calculator on a property without applicable rule. *)
Lemma calculate_documentation_score_vacuous st property_id property_obj :
  properties st !! property_id = Some property_obj ->
  required_items_of property_obj = [] ->
  calculate_documentation_score st property_id = Py.Returns (f100, st).
Proof.
  intros Hget Hreq. unfold calculate_documentation_score.
  now rewrite Hget, Hreq.
Qed.

(** ** The rule table (claims C3, C4, C5, C10) *)

(** C10.  The requirement list does not depend on the ownership type: for
    every property type and every floor level, present or absent, any two
    ownership types give the same list. *)
Theorem rules_independent_of_ownership
    (property_type : PropertyType) (o1 o2 : OwnershipType)
    (floor_level : option FloorLevel) :
  get_applicable_compliance_items property_type o1 floor_level
  = get_applicable_compliance_items property_type o2 floor_level.
Proof. reflexivity. Qed.

(** C4.  A sectional-title apartment or townhouse has the four base entries,
    two individual and two shared; the top floor adds "Roof Access COC"
    (individual) for five entries, the ground floor adds "Foundation
    Inspection" (shared) for five entries, and a middle floor, like any
    other or no floor level, leaves exactly the four. *)
Theorem sectional_title_rules (townhouse : bool) (o : OwnershipType) :
  let property_type :=
    if townhouse then SECTIONAL_TITLE_TOWNHOUSE
    else SECTIONAL_TITLE_APARTMENT in
  let base :=
    [ Requirement.mk "Unit Electrical COC" "electrical" true;
      Requirement.mk "Unit Plumbing COC" "plumbing" true;
      Requirement.mk "Common Area Electrical" "electrical" false;
      Requirement.mk "Building Structural" "structural" false ] in
  get_applicable_compliance_items property_type o (Some TOP_FLOOR)
    = base ++ [ Requirement.mk "Roof Access COC" "structural" true ]
  /\ length (get_applicable_compliance_items property_type o (Some TOP_FLOOR))
     = 5%nat
  /\ get_applicable_compliance_items property_type o (Some GROUND_FLOOR)
    = base ++ [ Requirement.mk "Foundation Inspection" "structural" false ]
  /\ length
       (get_applicable_compliance_items property_type o (Some GROUND_FLOOR))
     = 5%nat
  /\ get_applicable_compliance_items property_type o (Some MIDDLE_FLOOR)
    = base
  /\ length
       (get_applicable_compliance_items property_type o (Some MIDDLE_FLOOR))
     = 4%nat
  /\ get_applicable_compliance_items property_type o (Some PENTHOUSE) = base
  /\ get_applicable_compliance_items property_type o (Some BASEMENT) = base
  /\ get_applicable_compliance_items property_type o None = base.
Proof. destruct townhouse; repeat split; reflexivity. Qed.

(** C3.  A property type outside the mapped ones has an empty requirement
    list whatever the ownership type and the floor level, and the score of
    a stored property of such a type is returned as 100, with the database
    as it was. *)
Theorem unmapped_type_rules_and_score
    (property_type : PropertyType) (o : OwnershipType)
    (floor_level : option FloorLevel) :
  ~ In property_type
      [ FREESTANDING_HOUSE; SECTIONAL_TITLE_APARTMENT;
        SECTIONAL_TITLE_TOWNHOUSE; COMMERCIAL_OFFICE; SCHOOL; HOSPITAL ] ->
  get_applicable_compliance_items property_type o floor_level = []
  /\ forall st property_id property_obj,
       properties st !! property_id = Some property_obj ->
       EnhancedProperty.property_type property_obj = property_type ->
       calculate_documentation_score st property_id
       = Py.Returns (Py.of_int 100, st).
Proof.
  intros Hout.
  assert (Hrules : forall o' fl',
             get_applicable_compliance_items property_type o' fl' = []).
  { intros o' fl'.
    destruct property_type; try reflexivity;
      exfalso; apply Hout; simpl; tauto. }
  split; [apply Hrules|].
  intros st property_id property_obj Hget Hty.
  apply (calculate_documentation_score_vacuous st property_id property_obj Hget).
  unfold required_items_of. rewrite Hty. apply Hrules.
Qed.

Lemma unmapped_type_rules_and_score_witness :
  get_applicable_compliance_items CLUSTER_HOME COMPANY (Some BASEMENT) = []
  /\ calculate_documentation_score Sample.cluster_db 1
     = Py.Returns (Py.of_int 100, Sample.cluster_db).
Proof.
  destruct (unmapped_type_rules_and_score CLUSTER_HOME COMPANY (Some BASEMENT))
    as [Hrules Hscore].
  - simpl. intuition discriminate.
  - split; [exact Hrules|].
    apply (Hscore Sample.cluster_db 1
             (Sample.property CLUSTER_HOME INDIVIDUAL None));
      reflexivity.
Defined.

(** C5.  A hospital held by an individual, without floor level, has exactly
    the five hospital requirements, each an individual responsibility; and
    when exactly two of the rows stored for such a property are compliant,
    the five created for it included, the score is returned as 40.0 (and
    stored on the property). *)
Theorem hospital_rules_and_score :
  get_applicable_compliance_items HOSPITAL INDIVIDUAL None
  = [ Requirement.mk "Medical Gas Systems" "medical" true;
      Requirement.mk "Emergency Power Systems" "electrical" true;
      Requirement.mk "Infection Control Systems" "health" true;
      Requirement.mk "Waste Management COC" "environmental" true;
      Requirement.mk "Radiation Safety" "safety" true ]
  /\ forallb Requirement.individual_responsibility
       (get_applicable_compliance_items HOSPITAL INDIVIDUAL None) = true
  /\ forall st property_id property_obj,
       properties st !! property_id = Some property_obj ->
       EnhancedProperty.property_type property_obj = HOSPITAL ->
       EnhancedProperty.ownership_type property_obj = INDIVIDUAL ->
       EnhancedProperty.floor_level property_obj = None ->
       count (compliant_items_of st property_id) = 2 ->
       exists st',
         calculate_documentation_score st property_id
         = Py.Returns (Py.of_int 40, st')
         /\ EnhancedProperty.documentation_score <$> properties st' !! property_id
            = Some (Py.of_int 40).
Proof.
  split; [reflexivity|]. split; [reflexivity|].
  intros st property_id property_obj Hget Hty How Hfl Hcompliant.
  assert (Hreq : required_items_of property_obj = Sample.hospital_rules).
  { unfold required_items_of. now rewrite Hty, How, Hfl. }
  rewrite (calculate_documentation_score_eq st property_id property_obj Hget)
    by (rewrite Hreq; discriminate).
  rewrite Hcompliant, Hreq. cbv zeta.
  change (Py.mul_int
            (SFdiv Py.prec Py.emax (Py.exact 2)
               (Py.exact (count Sample.hospital_rules))) 100)
    with (Py.of_int 40).
  eexists. split; [reflexivity|].
  unfold commit_property. simpl. now rewrite lookup_insert_eq.
Qed.

Lemma hospital_rules_and_score_witness :
  exists st',
    calculate_documentation_score Sample.hospital_db 1
    = Py.Returns (Py.of_int 40, st')
    /\ EnhancedProperty.documentation_score <$> properties st' !! 1
       = Some (Py.of_int 40).
Proof.
  destruct hospital_rules_and_score as (_ & _ & Hscore).
  apply (Hscore Sample.hospital_db 1
           (Sample.property HOSPITAL INDIVIDUAL None));
    reflexivity.
Defined.

(** ** The gap detector (claims C6, C7) *)

(** C6.  For a stored property without any compliance row, the detector
    creates one gap per applicable requirement, in rule order, described as
    "Missing <name> for <category> compliance", of severity high for an
    individual responsibility and medium otherwise; it returns exactly the
    rows it appends to the gap table. *)
Theorem gaps_of_property_without_items st property_id property_obj :
  properties st !! property_id = Some property_obj ->
  items_of st property_id = [] ->
  let gap_for (r : Requirement.t) :=
    PropertyDocumentationGap.mk property_id "missing_compliance"
      ("Missing " ++ Requirement.name r ++ " for " ++ Requirement.category r
         ++ " compliance")%string
      (if Requirement.individual_responsibility r then "high" else "medium")
      false in
  let created := List.map gap_for (required_items_of property_obj) in
  identify_documentation_gaps st property_id
  = (created,
     mkdb (properties st) (compliance_items st)
          (documentation_gaps st ++ created)).
Proof.
  intros Hget Hnone gap_for created.
  rewrite (identify_documentation_gaps_eq st property_id property_obj Hget).
  rewrite Hnone. cbn [List.map].
  assert (Hall : List.filter
                   (fun r => negb (contains [] (Requirement.name r)))
                   (required_items_of property_obj)
                 = required_items_of property_obj).
  { induction (required_items_of property_obj) as [|r rs IH];
      simpl; [reflexivity | f_equal; exact IH]. }
  rewrite Hall. reflexivity.
Qed.

Lemma gaps_of_property_without_items_witness :
  identify_documentation_gaps Sample.fresh_db 1
  = ([ PropertyDocumentationGap.mk 1 "missing_compliance"
         "Missing Unit Electrical COC for electrical compliance" "high" false;
       PropertyDocumentationGap.mk 1 "missing_compliance"
         "Missing Unit Plumbing COC for plumbing compliance" "high" false;
       PropertyDocumentationGap.mk 1 "missing_compliance"
         "Missing Common Area Electrical for electrical compliance" "medium"
         false;
       PropertyDocumentationGap.mk 1 "missing_compliance"
         "Missing Building Structural for structural compliance" "medium"
         false;
       PropertyDocumentationGap.mk 1 "missing_compliance"
         "Missing Roof Access COC for structural compliance" "high" false ],
     mkdb (properties Sample.fresh_db) []
       [ PropertyDocumentationGap.mk 1 "missing_compliance"
           "Missing Unit Electrical COC for electrical compliance" "high"
           false;
         PropertyDocumentationGap.mk 1 "missing_compliance"
           "Missing Unit Plumbing COC for plumbing compliance" "high" false;
         PropertyDocumentationGap.mk 1 "missing_compliance"
           "Missing Common Area Electrical for electrical compliance"
           "medium" false;
         PropertyDocumentationGap.mk 1 "missing_compliance"
           "Missing Building Structural for structural compliance" "medium"
           false;
         PropertyDocumentationGap.mk 1 "missing_compliance"
           "Missing Roof Access COC for structural compliance" "high"
           false ]).
Proof.
  apply (gaps_of_property_without_items Sample.fresh_db 1
           (Sample.property SECTIONAL_TITLE_APARTMENT SECTIONAL_TITLE
              (Some TOP_FLOOR)));
    reflexivity.
Defined.

(** Rewriting the compliance flags of the stored rows. *)
Lemma items_of_reflag (flags : ComplianceItem.t -> bool) st property_id :
  List.map ComplianceItem.name
    (items_of
       (mkdb (properties st)
          (List.map (fun it => ComplianceItem.set_is_compliant it (flags it))
             (compliance_items st))
          (documentation_gaps st))
       property_id)
  = List.map ComplianceItem.name (items_of st property_id).
Proof.
  unfold items_of. simpl.
  induction (compliance_items st) as [|it its IH]; simpl; [reflexivity|].
  destruct (ComplianceItem.property_id it =? property_id); simpl;
    now rewrite IH.
Qed.

(** C7.  A row counts as present by its name alone: rewriting the
    compliance flags of the stored rows in any way leaves the detected gaps
    the same.  And for a commercial office that has a row for every
    requirement of its rule table of four but one, the detector creates
    exactly one gap, for that requirement, whatever the flags of the stored
    rows are. *)
Theorem gaps_depend_on_row_names_only :
  (forall st property_id (flags : ComplianceItem.t -> bool),
      fst (identify_documentation_gaps
             (mkdb (properties st)
                (List.map
                   (fun it => ComplianceItem.set_is_compliant it (flags it))
                   (compliance_items st))
                (documentation_gaps st))
             property_id)
      = fst (identify_documentation_gaps st property_id))
  /\ forall st property_id property_obj (missing : Requirement.t),
       properties st !! property_id = Some property_obj ->
       EnhancedProperty.property_type property_obj = COMMERCIAL_OFFICE ->
       In missing (required_items_of property_obj) ->
       (forall r, In r (required_items_of property_obj) -> r <> missing ->
                  In (Requirement.name r)
                     (List.map ComplianceItem.name (items_of st property_id))) ->
       ~ In (Requirement.name missing)
            (List.map ComplianceItem.name (items_of st property_id)) ->
       let gap :=
         PropertyDocumentationGap.mk property_id "missing_compliance"
           ("Missing " ++ Requirement.name missing ++ " for "
              ++ Requirement.category missing ++ " compliance")%string
           "high" false in
       length (required_items_of property_obj) = 4%nat
       /\ identify_documentation_gaps st property_id
          = ([gap],
             mkdb (properties st) (compliance_items st)
                  (documentation_gaps st ++ [gap])).
Proof.
  split.
  - intros st property_id flags.
    unfold identify_documentation_gaps. cbn [properties].
    destruct (properties st !! property_id) as [property_obj|];
      [|reflexivity].
    cbv zeta. cbn [fst]. now rewrite items_of_reflag.
  - intros st property_id property_obj missing Hget Hty Hin Hrest Hmiss gap.
    split; [unfold required_items_of; now rewrite Hty|].
    rewrite (identify_documentation_gaps_eq st property_id property_obj Hget).
    cbv zeta.
    set (names := List.map ComplianceItem.name (items_of st property_id))
      in *.
    assert (Hpresent : forall r, In r (required_items_of property_obj) ->
               r <> missing -> contains names (Requirement.name r) = true).
    { intros r Hr Hne. apply contains_In. now apply Hrest. }
    assert (Habsent : contains names (Requirement.name missing) = false).
    { destruct (contains names (Requirement.name missing)) eqn:E;
        [|reflexivity].
      apply contains_In in E. contradiction. }
    assert (Hreq : required_items_of property_obj = Sample.office_rules).
    { unfold required_items_of. now rewrite Hty. }
    rewrite Hreq in *. subst gap.
    destruct Hin as [<-|[<-|[<-|[<-|[]]]]];
      cbn [Sample.office_rules get_applicable_compliance_items List.filter];
      rewrite Habsent;
      rewrite ?Hpresent by (first [discriminate | simpl; tauto]);
      reflexivity.
Qed.

Lemma gaps_depend_on_row_names_only_witness :
  identify_documentation_gaps Sample.office_db 1
  = ([ PropertyDocumentationGap.mk 1 "missing_compliance"
         "Missing HVAC System COC for mechanical compliance" "high" false ],
     mkdb (properties Sample.office_db) (compliance_items Sample.office_db)
       [ PropertyDocumentationGap.mk 1 "missing_compliance"
           "Missing HVAC System COC for mechanical compliance" "high"
           false ]).
Proof.
  destruct gaps_depend_on_row_names_only as [_ Hone].
  apply (Hone Sample.office_db 1
           (Sample.property COMMERCIAL_OFFICE COMPANY None)
           (Requirement.mk "HVAC System COC" "mechanical" true)).
  - reflexivity.
  - reflexivity.
  - simpl. tauto.
  - intros r [<-|[<-|[<-|[<-|[]]]]] Hne; simpl; tauto.
  - simpl. intuition discriminate.
Defined.

(** ** The score calculator (claims C2, C8) *)

Lemma commit_property_twice st property_id property_obj score :
  commit_property
    (commit_property st property_id
       (EnhancedProperty.set_documentation_score property_obj score))
    property_id
    (EnhancedProperty.set_documentation_score
       (EnhancedProperty.set_documentation_score property_obj score) score)
  = commit_property st property_id
      (EnhancedProperty.set_documentation_score property_obj score).
Proof.
  unfold commit_property. cbn [properties compliance_items documentation_gaps].
  now rewrite insert_insert_eq.
Qed.

(** C8.  The calculator is idempotent: on a stored property it returns a
    value and a database, and called again on that database it returns the
    same value and leaves the database exactly as the first call left it. *)
Theorem score_idempotent st property_id property_obj :
  properties st !! property_id = Some property_obj ->
  exists score st1,
    calculate_documentation_score st property_id = Py.Returns (score, st1)
    /\ calculate_documentation_score st1 property_id
       = Py.Returns (score, st1).
Proof.
  intros Hget.
  destruct (required_items_of property_obj) as [|r rs] eqn:Hreq.
  - exists f100, st.
    split;
      apply (calculate_documentation_score_vacuous st property_id
               property_obj Hget Hreq).
  - assert (Hne : required_items_of property_obj <> [])
      by (rewrite Hreq; discriminate).
    rewrite (calculate_documentation_score_eq st property_id property_obj
               Hget Hne).
    cbv zeta.
    set (score := Py.mul_int _ 100).
    set (stored := EnhancedProperty.set_documentation_score property_obj score).
    exists score, (commit_property st property_id stored).
    split; [reflexivity|].
    assert (Hget1 : properties (commit_property st property_id stored)
                      !! property_id = Some stored)
      by (unfold commit_property; cbn [properties]; apply lookup_insert_eq).
    rewrite (calculate_documentation_score_eq _ property_id stored Hget1)
      by (subst stored; rewrite required_items_of_set_score; exact Hne).
    cbv zeta. subst stored. rewrite required_items_of_set_score.
    change (compliant_items_of (commit_property st property_id _) property_id)
      with (compliant_items_of st property_id).
    fold score. now rewrite commit_property_twice.
Qed.

Lemma score_idempotent_witness :
  exists score st1,
    calculate_documentation_score Sample.hospital_db 1
    = Py.Returns (score, st1)
    /\ calculate_documentation_score st1 1 = Py.Returns (score, st1).
Proof.
  apply (score_idempotent Sample.hospital_db 1
           (Sample.property HOSPITAL INDIVIDUAL None)).
  reflexivity.
Defined.

(** C2, evaluated.  For a cluster home, whose rule table is empty, the
    calculator returns 100.0 and leaves the database untouched: the stored
    score keeps its previous value, here the column default 0.0. *)
Theorem score_not_stored_when_no_rule_applies :
  required_items_of (Sample.property CLUSTER_HOME INDIVIDUAL None) = []
  /\ calculate_documentation_score Sample.cluster_db 1
     = Py.Returns (Py.of_int 100, Sample.cluster_db)
  /\ EnhancedProperty.documentation_score
       <$> properties Sample.cluster_db !! 1
     = Some f0
  /\ SFeqb f0 (Py.of_int 100) = false.
Proof. repeat split; reflexivity. Qed.

(** ** The read endpoint *)

Lemma percentage_or_eq (part total otherwise : Z) :
  percentage_or part total otherwise
  = Py.Returns
      (if 0 <? total
       then Py.Float
              (Py.mul_int
                 (SFdiv Py.prec Py.emax (Py.exact part) (Py.exact total)) 100)
       else Py.Int otherwise).
Proof.
  unfold percentage_or, Py.truediv.
  destruct (0 <? total) eqn:Hpos; [|reflexivity].
  apply Z.ltb_lt in Hpos.
  replace (total =? 0) with false by (symmetry; apply Z.eqb_neq; lia).
  reflexivity.
Qed.

(** The score the calculator returns for a stored property. *)
Lemma calculate_documentation_score_value st property_id property_obj :
  properties st !! property_id = Some property_obj ->
  exists st',
    calculate_documentation_score st property_id
    = Py.Returns
        (match required_items_of property_obj with
         | [] => Py.of_int 100
         | _ :: _ =>
             Py.mul_int
               (SFdiv Py.prec Py.emax
                  (Py.exact (count (compliant_items_of st property_id)))
                  (Py.exact (count (required_items_of property_obj))))
               100
         end, st').
Proof.
  intros Hget.
  destruct (required_items_of property_obj) as [|r rs] eqn:Hreq.
  - exists st.
    apply (calculate_documentation_score_vacuous st property_id
             property_obj Hget Hreq).
  - eexists.
    rewrite (calculate_documentation_score_eq st property_id property_obj
               Hget) by (rewrite Hreq; discriminate).
    cbv zeta. rewrite Hreq. reflexivity.
Qed.


(** Zero compliant rows: the quotient by any positive count, times 100, is
    the float zero. *)
Lemma zero_ratio (n : nat) :
  Py.mul_int
    (SFdiv Py.prec Py.emax (Py.exact 0) (Py.exact (Z.of_nat (S n)))) 100
  = f0.
Proof. reflexivity. Qed.

(** ** Further properties of the calculator and the detector *)

(** The rule table has no entry, four or five. *)
Lemma rule_table_size (property_obj : EnhancedProperty.t) :
  count (required_items_of property_obj) = 0
  \/ count (required_items_of property_obj) = 4
  \/ count (required_items_of property_obj) = 5.
Proof.
  unfold required_items_of.
  destruct (EnhancedProperty.property_type property_obj);
    destruct (EnhancedProperty.floor_level property_obj) as [[]|];
    cbn; tauto.
Qed.

(** X1.  For an identifier that fits a 64-bit integer the calculator
    never raises, whatever the database: an unknown identifier gives 0.0
    and leaves the database as it is; a stored property gives 100.0 when
    its rule table is empty, and otherwise the ratio of its compliant rows
    to the size of the table, times 100, the division being guarded by the
    test on the table. *)
Theorem score_never_raises st property_id :
  fits_integer_column property_id = true ->
  match properties st !! property_id with
  | None =>
      calculate_documentation_score st property_id = Py.Returns (f0, st)
  | Some property_obj =>
      exists st',
        calculate_documentation_score st property_id
        = Py.Returns
            (match required_items_of property_obj with
             | [] => Py.of_int 100
             | _ :: _ =>
                 Py.mul_int
                   (SFdiv Py.prec Py.emax
                      (Py.exact (count (compliant_items_of st property_id)))
                      (Py.exact (count (required_items_of property_obj))))
                   100
             end, st')
  end.
Proof.
  intros _.
  destruct (properties st !! property_id) as [property_obj|] eqn:Hget.
  - exact (calculate_documentation_score_value st property_id property_obj
             Hget).
  - unfold calculate_documentation_score. now rewrite Hget.
Qed.

Lemma score_never_raises_witness :
  calculate_documentation_score Sample.hospital_db 9
  = Py.Returns (f0, Sample.hospital_db)
  /\ exists st',
       calculate_documentation_score Sample.hospital_db 1
       = Py.Returns (Py.of_int 40, st').
Proof.
  split.
  - exact (score_never_raises Sample.hospital_db 9 eq_refl).
  - exact (score_never_raises Sample.hospital_db 1 eq_refl).
Defined.

(** X2.  While the compliant rows of a stored property do not outnumber
    its rules, the score lies between 0.0 and 100.0. *)
Theorem score_in_range_when_rows_within_rules st property_id property_obj :
  properties st !! property_id = Some property_obj ->
  count (compliant_items_of st property_id)
    <= count (required_items_of property_obj) ->
  exists score st',
    calculate_documentation_score st property_id = Py.Returns (score, st')
    /\ Py.leb f0 score = true
    /\ Py.leb score (Py.of_int 100) = true.
Proof.
  intros Hget Hle.
  destruct (calculate_documentation_score_value st property_id property_obj
              Hget) as [st' Hscore].
  eexists _, st'. split; [exact Hscore|].
  destruct (required_items_of property_obj) as [|r rs] eqn:Hreq;
    [split; reflexivity|].
  pose proof (rule_table_size property_obj) as Hsize.
  rewrite Hreq in Hsize.
  unfold count in Hle, Hsize |- *.
  destruct Hsize as [Hsize|[Hsize|Hsize]];
    [exfalso; simpl length in Hsize; lia | |];
    rewrite Hsize in *;
    destruct (length (compliant_items_of st property_id))
      as [|[|[|[|[|[|n]]]]]];
    try lia; split; reflexivity.
Qed.

Lemma score_in_range_when_rows_within_rules_witness :
  exists score st',
    calculate_documentation_score Sample.hospital_db 1
    = Py.Returns (score, st')
    /\ Py.leb f0 score = true
    /\ Py.leb score (Py.of_int 100) = true.
Proof.
  apply (score_in_range_when_rows_within_rules Sample.hospital_db 1
           (Sample.property HOSPITAL INDIVIDUAL None)).
  - reflexivity.
  - vm_compute. discriminate.
Defined.

(** X3.  When a rule applies, the score is stored on the property; the
    owner, name, address, classification, council flag and active flag of
    the property are as before, as are the other properties and both child
    tables.  The [updated_at] stamp, which is renewed whenever a changed
    score is stored, is not a column of the record, and nothing is stated
    of it. *)
Theorem score_stored_when_rules_apply st property_id property_obj :
  properties st !! property_id = Some property_obj ->
  required_items_of property_obj <> [] ->
  exists score st' stored,
    calculate_documentation_score st property_id = Py.Returns (score, st')
    /\ properties st' !! property_id = Some stored
    /\ EnhancedProperty.documentation_score stored = score
    /\ EnhancedProperty.user_id stored = EnhancedProperty.user_id property_obj
    /\ EnhancedProperty.name stored = EnhancedProperty.name property_obj
    /\ EnhancedProperty.address stored = EnhancedProperty.address property_obj
    /\ EnhancedProperty.property_type stored
       = EnhancedProperty.property_type property_obj
    /\ EnhancedProperty.ownership_type stored
       = EnhancedProperty.ownership_type property_obj
    /\ EnhancedProperty.floor_level stored
       = EnhancedProperty.floor_level property_obj
    /\ EnhancedProperty.council_data_imported stored
       = EnhancedProperty.council_data_imported property_obj
    /\ EnhancedProperty.is_active stored
       = EnhancedProperty.is_active property_obj
    /\ (forall other, other <> property_id ->
          properties st' !! other = properties st !! other)
    /\ compliance_items st' = compliance_items st
    /\ documentation_gaps st' = documentation_gaps st.
Proof.
  intros Hget Hne.
  rewrite (calculate_documentation_score_eq st property_id property_obj
             Hget Hne).
  cbv zeta. eexists _, _, _. split; [reflexivity|].
  unfold commit_property. cbn [properties compliance_items documentation_gaps].
  split; [apply lookup_insert_eq|].
  repeat (split; [reflexivity|]).
  split; [|split; reflexivity].
  intros other Hother. now apply lookup_insert_ne.
Qed.

Lemma score_stored_when_rules_apply_witness :
  exists score st' stored,
    calculate_documentation_score Sample.hospital_db 1
    = Py.Returns (score, st')
    /\ properties st' !! 1 = Some stored
    /\ EnhancedProperty.documentation_score stored = score.
Proof.
  destruct (score_stored_when_rules_apply Sample.hospital_db 1
              (Sample.property HOSPITAL INDIVIDUAL None))
    as (score & st' & stored & Hscore & Hstored & Hvalue & _).
  - reflexivity.
  - discriminate.
  - exists score, st', stored. auto.
Defined.

(** X4.  A freestanding house without compliant row scores 0.0, and with
    five compliant rows 100.0. *)
Theorem house_score_bounds st property_id property_obj :
  properties st !! property_id = Some property_obj ->
  EnhancedProperty.property_type property_obj = FREESTANDING_HOUSE ->
  (count (compliant_items_of st property_id) = 0 ->
   exists st',
     calculate_documentation_score st property_id = Py.Returns (f0, st'))
  /\ (count (compliant_items_of st property_id) = 5 ->
      exists st',
        calculate_documentation_score st property_id
        = Py.Returns (Py.of_int 100, st')).
Proof.
  intros Hget Hty.
  assert (Hreq : required_items_of property_obj = Sample.house_rules)
    by (unfold required_items_of; now rewrite Hty).
  destruct (calculate_documentation_score_value st property_id property_obj
              Hget) as [st' Hscore].
  rewrite Hreq in Hscore.
  split; intros Hcount; rewrite Hcount in Hscore; exists st'; exact Hscore.
Qed.

Lemma house_score_bounds_witness :
  exists st',
    calculate_documentation_score Sample.fresh_db 2 = Py.Returns (f0, st').
Proof.
  destruct (house_score_bounds Sample.fresh_db 2
              (Sample.property FREESTANDING_HOUSE INDIVIDUAL None))
    as [Hzero _]; [reflexivity | reflexivity |].
  apply Hzero. reflexivity.
Defined.

(** X5.  The detector does not look at the gap table: run again while the
    rows are still missing, it returns the same gaps and appends them a
    second time. *)
Theorem gap_detection_repeats st property_id :
  let '(gaps, st1) := identify_documentation_gaps st property_id in
  identify_documentation_gaps st1 property_id
  = (gaps,
     mkdb (properties st) (compliance_items st)
          ((documentation_gaps st ++ gaps) ++ gaps)).
Proof.
  destruct (properties st !! property_id) as [property_obj|] eqn:Hget.
  - rewrite (identify_documentation_gaps_eq st property_id property_obj Hget).
    cbv zeta.
    set (gaps := List.map _ _).
    apply (identify_documentation_gaps_eq
             (mkdb (properties st) (compliance_items st)
                (documentation_gaps st ++ gaps))
             property_id property_obj Hget).
  - unfold identify_documentation_gaps. rewrite Hget. cbv iota beta.
    rewrite Hget, !app_nil_r. now destruct st.
Qed.

(** ** The rule table and the enumerations, further *)

(** X6.  Within the requirement list of any classification no two entries
    share a name: the detector, which matches rows by name, never confuses
    two requirements of one property. *)
Theorem rule_names_distinct
    (property_type : PropertyType) (o : OwnershipType)
    (floor_level : option FloorLevel) :
  List.NoDup
    (List.map Requirement.name
       (get_applicable_compliance_items property_type o floor_level)).
Proof.
  destruct property_type; destruct floor_level as [[]|]; cbn;
    repeat (constructor; [cbn; intuition discriminate|]);
    constructor.
Qed.

Lemma find_value_sound {A : Type} (value : A -> string) (members : list A)
    (s : string) (x : A) :
  List.find (fun y => String.eqb (value y) s) members = Some x ->
  value x = s.
Proof.
  intros Hfind. apply find_some in Hfind as [_ Heq].
  now apply String.eqb_eq.
Qed.

(** X7.  Enumeration values round-trip: calling an enumeration on the value
    of a member gives that member back, a value that is accepted is the
    value of the member returned, and every entry the listing endpoint
    shows is accepted and carries the name of the member it denotes. *)
Theorem enumeration_values_round_trip :
  (forall pt, property_type_of_value (property_type_value pt) = Some pt)
  /\ (forall ot, ownership_type_of_value (ownership_type_value ot) = Some ot)
  /\ (forall fl, floor_level_of_value (floor_level_value fl) = Some fl)
  /\ (forall s pt, property_type_of_value s = Some pt ->
                   property_type_value pt = s)
  /\ (forall s ot, ownership_type_of_value s = Some ot ->
                   ownership_type_value ot = s)
  /\ (forall s fl, floor_level_of_value s = Some fl ->
                   floor_level_value fl = s)
  /\ List.Forall
       (fun e => exists pt,
            property_type_of_value (EnumEntry.value e) = Some pt
            /\ property_type_name pt = EnumEntry.name e)
       (PropertyTypesResponse.property_types get_property_types)
  /\ List.Forall
       (fun e => exists ot,
            ownership_type_of_value (EnumEntry.value e) = Some ot
            /\ ownership_type_name ot = EnumEntry.name e)
       (PropertyTypesResponse.ownership_types get_property_types)
  /\ List.Forall
       (fun e => exists fl,
            floor_level_of_value (EnumEntry.value e) = Some fl
            /\ floor_level_name fl = EnumEntry.name e)
       (PropertyTypesResponse.floor_levels get_property_types).
Proof.
  split; [intros []; reflexivity|].
  split; [intros []; reflexivity|].
  split; [intros []; reflexivity|].
  split; [intros s pt; apply find_value_sound|].
  split; [intros s ot; apply find_value_sound|].
  split; [intros s fl; apply find_value_sound|].
  split; [|split];
    cbn; repeat (constructor; [eexists; split; reflexivity|]);
    constructor.
Qed.

Lemma enumeration_values_round_trip_witness :
  property_type_value HOSPITAL = "hospital".
Proof.
  destruct enumeration_values_round_trip as (_ & _ & _ & Hsound & _).
  apply Hsound. reflexivity.
Defined.

(** ** The detector, further *)

(** X8.  For a stored property the detector reports exactly the
    requirements no stored row of the property is named after; it reports
    nothing exactly when every requirement has such a row. *)
Theorem gaps_are_the_missing_requirements st property_id property_obj :
  properties st !! property_id = Some property_obj ->
  let names := List.map ComplianceItem.name (items_of st property_id) in
  (forall gap,
      In gap (fst (identify_documentation_gaps st property_id))
      <-> exists r,
            In r (required_items_of property_obj)
            /\ ~ In (Requirement.name r) names
            /\ gap = missing_compliance_gap property_id r)
  /\ (fst (identify_documentation_gaps st property_id) = []
      <-> forall r, In r (required_items_of property_obj) ->
                    In (Requirement.name r) names).
Proof.
  intros Hget names.
  assert (Hmem : forall gap,
      In gap (fst (identify_documentation_gaps st property_id))
      <-> exists r,
            In r (required_items_of property_obj)
            /\ ~ In (Requirement.name r) names
            /\ gap = missing_compliance_gap property_id r).
  { intros gap.
    rewrite (identify_documentation_gaps_eq st property_id property_obj Hget).
    cbv zeta. cbn [fst]. fold names. rewrite in_map_iff. split.
    - intros (r & <- & Hr). apply filter_In in Hr as [Hr Hneg].
      exists r. repeat split; [exact Hr|].
      intros Hin. apply contains_In in Hin. rewrite Hin in Hneg.
      discriminate.
    - intros (r & Hr & Hnot & ->). exists r. split; [reflexivity|].
      apply filter_In. split; [exact Hr|].
      destruct (contains names (Requirement.name r)) eqn:E; [|reflexivity].
      apply contains_In in E. contradiction. }
  split; [exact Hmem|]. split.
  - intros Hnil r Hr.
    destruct (contains names (Requirement.name r)) eqn:E;
      [now apply contains_In|].
    exfalso.
    assert (Hin : In (missing_compliance_gap property_id r)
                     (fst (identify_documentation_gaps st property_id))).
    { apply Hmem. exists r. repeat split; [exact Hr|].
      intros Hin. apply contains_In in Hin. congruence. }
    rewrite Hnil in Hin. exact Hin.
  - intros Hall.
    destruct (fst (identify_documentation_gaps st property_id))
      as [|gap gaps] eqn:E; [reflexivity|].
    exfalso.
    destruct (proj1 (Hmem gap)) as (r & Hr & Hnot & _);
      [left; reflexivity|].
    apply Hnot, Hall, Hr.
Qed.

Lemma gaps_are_the_missing_requirements_witness :
  fst (identify_documentation_gaps Scenario.apartment_db 1) = [].
Proof.
  destruct (gaps_are_the_missing_requirements Scenario.apartment_db 1
              (Sample.property SECTIONAL_TITLE_APARTMENT SECTIONAL_TITLE
                 (Some TOP_FLOOR)) eq_refl) as [_ Hnone].
  apply Hnone.
  intros r [<-|[<-|[<-|[<-|[<-|[]]]]]]; vm_compute; tauto.
Defined.


(** ** The calculator and the read endpoint, further *)



Lemma filter_conj_length_le {A : Type} (f g : A -> bool) (l : list A) :
  (length (List.filter (fun x => f x && g x) l)
   <= length (List.filter f l))%nat.
Proof.
  induction l as [|x l IH]; cbn; [lia|].
  destruct (f x), (g x); cbn; lia.
Qed.

(** X11.  The read endpoint answers 404 for a key no property has, or 500
    (OverflowError) when that key does not fit a 64-bit integer; for a
    stored property it always answers: its score and its effect on the
    database are those of the calculator, and in its breakdown the
    compliant rows never outnumber the stored rows, nor the resolved gaps
    the recorded gaps. *)
Theorem read_endpoint_outcomes st property_id :
  (properties st !! property_id = None
   /\ fits_integer_column property_id = true
   /\ get_documentation_score st property_id = Py.Raises Py.NotFound)
  \/ (properties st !! property_id = None
      /\ fits_integer_column property_id = false
      /\ get_documentation_score st property_id
         = Py.Raises Py.OverflowError)
  \/ (exists property_obj resp score st',
         properties st !! property_id = Some property_obj
         /\ calculate_documentation_score st property_id
            = Py.Returns (score, st')
         /\ get_documentation_score st property_id = Py.Returns (resp, st')
         /\ ScoreResponse.documentation_score resp = score
         /\ 0 <= ScoreResponse.compliant_items resp
            <= ScoreResponse.total_items resp
         /\ 0 <= ScoreResponse.resolved_gaps resp
            <= ScoreResponse.total_gaps resp).
Proof.
  destruct (properties st !! property_id) as [property_obj|] eqn:Hget.
  - right. right.
    destruct (calculate_documentation_score_value st property_id
                property_obj Hget) as [st' Hscore].
    eexists property_obj, _, _, st'.
    split; [reflexivity|]. split; [exact Hscore|].
    unfold get_documentation_score. rewrite Hget. cbv zeta.
    rewrite Hscore, !percentage_or_eq. cbn.
    split; [reflexivity|]. split; [reflexivity|].
    unfold count, compliant_items_of, items_of, resolved_gaps_of, gaps_of.
    pose proof (filter_conj_length_le
                  (fun it => ComplianceItem.property_id it =? property_id)
                  ComplianceItem.is_compliant (compliance_items st))
      as Hitems.
    pose proof (filter_conj_length_le
                  (fun g => PropertyDocumentationGap.property_id g
                            =? property_id)
                  PropertyDocumentationGap.is_resolved
                  (documentation_gaps st))
      as Hgaps.
    cbv beta in Hitems, Hgaps.
    cbn [ScoreResponse.compliant_items ScoreResponse.total_items
         ScoreResponse.resolved_gaps ScoreResponse.total_gaps].
    lia.
  - unfold get_documentation_score. rewrite Hget.
    destruct (fits_integer_column property_id); [left | right; left];
      repeat split.
Qed.

(** ** The creation route *)

Lemma fold_left_session_add_item (new_id : Z) (rs : list Requirement.t) :
  forall st,
    fold_left
      (fun st req => session_add_item st (new_compliance_item new_id req))
      rs st
    = mkdb (properties st)
           (compliance_items st ++ List.map (new_compliance_item new_id) rs)
           (documentation_gaps st).
Proof.
  induction rs as [|r rs IH]; intros st; cbn [fold_left List.map].
  - rewrite app_nil_r. now destruct st.
  - rewrite IH. cbn [session_add_item properties compliance_items
                     documentation_gaps].
    now rewrite <- app_assoc.
Qed.

(** The rows created for a property are rows of that property, none of
    them compliant. *)
Lemma created_items_filter (new_id : Z) (rs : list Requirement.t) :
  List.filter (fun it => ComplianceItem.property_id it =? new_id)
    (List.map (new_compliance_item new_id) rs)
  = List.map (new_compliance_item new_id) rs
  /\ List.filter
       (fun it => (ComplianceItem.property_id it =? new_id)
                  && ComplianceItem.is_compliant it)
       (List.map (new_compliance_item new_id) rs)
     = [].
Proof.
  induction rs as [|r rs [IH1 IH2]]; cbn; [split; reflexivity|].
  rewrite Z.eqb_refl. cbn. rewrite IH1, IH2. split; reflexivity.
Qed.


(** The detector on a property all of whose requirements have a row. *)
Lemma identify_documentation_gaps_none st property_id property_obj :
  properties st !! property_id = Some property_obj ->
  (forall r, In r (required_items_of property_obj) ->
             In (Requirement.name r)
                (List.map ComplianceItem.name (items_of st property_id))) ->
  identify_documentation_gaps st property_id = ([], st).
Proof.
  intros Hget Hall.
  rewrite (identify_documentation_gaps_eq st property_id property_obj Hget).
  cbv zeta.
  assert (Hnone :
            List.filter
              (fun r => negb (contains
                 (List.map ComplianceItem.name (items_of st property_id))
                 (Requirement.name r)))
              (required_items_of property_obj) = []).
  { induction (required_items_of property_obj) as [|r rs IH];
      [reflexivity|].
    cbn [List.filter].
    rewrite (proj2 (contains_In _ _) (Hall r (or_introl eq_refl))).
    cbn [negb]. apply IH. intros r' Hr'. apply Hall. now right. }
  rewrite Hnone. cbn [List.map]. rewrite app_nil_r. now destruct st.
Qed.



(** The route on a request that builds a property: the rows are added, the
    detector finds nothing to record, and the calculator runs. *)
Lemma create_enhanced_property_eq st new_id data property_obj :
  new_enhanced_property data = Some property_obj ->
  fits_integer_column (EnhancedProperty.user_id property_obj) = true ->
  let st2 :=
    mkdb (<[new_id := property_obj]> (properties st))
         (compliance_items st
            ++ List.map (new_compliance_item new_id)
                 (required_items_of property_obj))
         (documentation_gaps st) in
  create_enhanced_property st new_id data
  = match calculate_documentation_score st2 new_id with
    | Py.Raises _ => (BadRequest, st2)
    | Py.Returns (_, st4) =>
        (Created new_id (count (required_items_of property_obj)), st4)
    end.
Proof.
  intros Hnew Hfits st2. unfold create_enhanced_property.
  rewrite Hnew, Hfits. cbn [negb].
  cbv zeta. rewrite fold_left_session_add_item.
  cbn [session_add_property properties compliance_items documentation_gaps].
  fold st2.
  assert (Hget : properties st2 !! new_id = Some property_obj)
    by (unfold st2; cbn [properties]; apply lookup_insert_eq).
  rewrite (identify_documentation_gaps_none st2 new_id property_obj Hget);
    [reflexivity|].
  intros r Hr. unfold items_of, st2. cbn [compliance_items].
  rewrite List.filter_app, (proj1 (created_items_filter new_id _)),
    List.map_app.
  apply in_or_app. right.
  rewrite List.map_map. cbn. apply in_map_iff. now exists r.
Qed.






(** The calculator changes the property table at the key asked for and
    nothing else. *)
Lemma calculate_documentation_score_frame st property_id score st' :
  calculate_documentation_score st property_id = Py.Returns (score, st') ->
  compliance_items st' = compliance_items st
  /\ documentation_gaps st' = documentation_gaps st
  /\ forall other, other <> property_id ->
                   properties st' !! other = properties st !! other.
Proof.
  unfold calculate_documentation_score.
  destruct (properties st !! property_id) as [property_obj|];
    [|intros [= _ <-]; auto].
  destruct (required_items_of property_obj) as [|r rs];
    [intros [= _ <-]; auto|].
  unfold Py.truediv.
  destruct (count (r :: rs) =? 0); [intros H; discriminate H|].
  intros [= _ <-]. unfold commit_property.
  cbn [properties compliance_items documentation_gaps].
  repeat split. intros other Hother. now apply lookup_insert_ne.
Qed.






(** X14.  Whatever the request and the database, the creation route leaves
    the gap table as it was: the detector it runs finds a row for every
    requirement.  It keeps the existing compliance rows in front of the
    ones it adds, which belong to the new key and are not compliant, and it
    leaves every other property alone. *)
Theorem creation_records_no_gap st new_id data :
  let st' := snd (create_enhanced_property st new_id data) in
  documentation_gaps st' = documentation_gaps st
  /\ (exists created,
         compliance_items st' = compliance_items st ++ created
         /\ List.Forall
              (fun it => ComplianceItem.property_id it = new_id
                         /\ ComplianceItem.is_compliant it = false)
              created)
  /\ forall other, other <> new_id ->
                   properties st' !! other = properties st !! other.
Proof.
  destruct (new_enhanced_property data) as [property_obj|] eqn:Hnew;
    [destruct (fits_integer_column (EnhancedProperty.user_id property_obj))
       eqn:Hfits|].
  - rewrite (create_enhanced_property_eq st new_id data property_obj Hnew
               Hfits).
    cbv zeta.
    match goal with
    | |- context [calculate_documentation_score ?s new_id] =>
        destruct (calculate_documentation_score_value s new_id property_obj)
          as [st4 Hscore];
          [cbn [properties]; apply lookup_insert_eq|];
          rewrite Hscore;
          destruct (calculate_documentation_score_frame _ _ _ _ Hscore)
            as (Hitems & Hgaps & Hothers)
    end.
    cbn [snd]. rewrite Hitems, Hgaps.
    cbn [properties compliance_items documentation_gaps] in *.
    split; [reflexivity|]. split.
    + eexists. split; [reflexivity|].
      apply List.Forall_forall. intros it Hin.
      apply in_map_iff in Hin as (r & <- & _). split; reflexivity.
    + intros other Hother. rewrite (Hothers other Hother).
      now apply lookup_insert_ne.
  - unfold create_enhanced_property. rewrite Hnew, Hfits. cbn [snd negb].
    split; [reflexivity|]. split; [|reflexivity].
    exists []. split; [now rewrite app_nil_r | constructor].
  - unfold create_enhanced_property. rewrite Hnew. cbn [snd].
    split; [reflexivity|]. split; [|reflexivity].
    exists []. split; [now rewrite app_nil_r | constructor].
Qed.



(** ** The update and the resolution routes *)

Section RowUpdate.

Context {A : Type}.

(** Replacing one row changes the number of selected rows by what the new
    row adds and the old one took. *)
Lemma filter_insert_count (f : A -> bool) (l : list A) :
  forall (i : nat) (x y : A),
    l !! i = Some x ->
    Z.of_nat (length (List.filter f (<[i := y]> l)))
    = Z.of_nat (length (List.filter f l)) + Z.b2z (f y) - Z.b2z (f x).
Proof.
  induction l as [|a l IH]; intros [|i] x y Hget; cbn in Hget;
    try discriminate.
  - injection Hget as ->. cbn. destruct (f y), (f x); cbn [length Z.b2z]; lia.
  - specialize (IH i x y Hget).
    change (<[S i := y]> (a :: l)) with (a :: <[i := y]> l).
    cbn [List.filter].
    destruct (f a); cbn [length]; rewrite ?Nat2Z.inj_succ, ?IH; lia.
Qed.

(** Replacing a row by one the selection and the projection cannot tell
    from it changes nothing in what is read. *)
Lemma filter_insert_map {B : Type} (f : A -> bool) (g : A -> B) (l : list A) :
  forall (i : nat) (x y : A),
    l !! i = Some x -> f y = f x -> g y = g x ->
    List.map g (List.filter f (<[i := y]> l))
    = List.map g (List.filter f l).
Proof.
  induction l as [|a l IH]; intros [|i] x y Hget Hf Hg; cbn in Hget;
    try discriminate.
  - injection Hget as ->. cbn. rewrite Hf. destruct (f x); cbn; congruence.
  - specialize (IH i x y Hget Hf Hg).
    change (<[S i := y]> (a :: l)) with (a :: <[i := y]> l).
    cbn [List.filter].
    destruct (f a); cbn [List.map]; now rewrite IH.
Qed.

End RowUpdate.

(** The calculator run again on the database it left. *)
Lemma calculate_documentation_score_again st property_id score st1 :
  calculate_documentation_score st property_id = Py.Returns (score, st1) ->
  calculate_documentation_score st1 property_id = Py.Returns (score, st1).
Proof.
  intros Hfirst.
  destruct (properties st !! property_id) as [property_obj|] eqn:Hget.
  - destruct (required_items_of property_obj) as [|r rs] eqn:Hreq.
    + rewrite (calculate_documentation_score_vacuous st property_id
                 property_obj Hget Hreq) in Hfirst.
      injection Hfirst as <- <-.
      apply (calculate_documentation_score_vacuous st property_id
               property_obj Hget Hreq).
    + assert (Hne : required_items_of property_obj <> [])
        by (rewrite Hreq; discriminate).
      rewrite (calculate_documentation_score_eq st property_id property_obj
                 Hget Hne) in Hfirst.
      cbv zeta in Hfirst. injection Hfirst as Hscore Hst.
      set (stored :=
             EnhancedProperty.set_documentation_score property_obj score).
      assert (Hst1 : st1 = commit_property st property_id stored)
        by (unfold stored; rewrite <- Hscore; now rewrite <- Hst).
      assert (Hget1 : properties st1 !! property_id = Some stored)
        by (rewrite Hst1; unfold commit_property; cbn [properties];
            apply lookup_insert_eq).
      rewrite (calculate_documentation_score_eq st1 property_id stored Hget1)
        by (unfold stored; rewrite required_items_of_set_score; exact Hne).
      cbv zeta. unfold stored at 1 3. rewrite required_items_of_set_score.
      replace (compliant_items_of st1 property_id)
        with (compliant_items_of st property_id)
        by (rewrite Hst1; reflexivity).
      rewrite Hscore. rewrite Hst1 at 1. unfold stored.
      rewrite commit_property_twice. now rewrite Hst1.
  - revert Hfirst. unfold calculate_documentation_score. rewrite Hget.
    intros [= <- <-]. now rewrite Hget.
Qed.

(** The state the update route hands to the calculator. *)
Lemma update_compliance_item_eq ok st property_id compliance_id data item :
  find_compliance_item st property_id compliance_id = Some item ->
  dates_parse ok data = true ->
  let item' :=
    match UpdateRequest.is_compliant data with
    | Some b => ComplianceItem.set_is_compliant item b
    | None => item
    end in
  let st1 :=
    mkdb (properties st) (<[compliance_id := item']> (compliance_items st))
         (documentation_gaps st) in
  exists score st2,
    calculate_documentation_score st1 property_id = Py.Returns (score, st2)
    /\ update_compliance_item ok st property_id compliance_id data
       = (Recalculated score, st2).
Proof.
  intros Hfind Hdates item' st1.
  destruct (properties st !! property_id) as [property_obj|] eqn:Hget.
  - destruct (calculate_documentation_score_value st1 property_id
                property_obj Hget) as [st2 Hscore].
    eexists _, st2. split; [exact Hscore|].
    unfold update_compliance_item. rewrite Hfind, Hdates.
    fold item'. fold st1. now rewrite Hscore.
  - exists f0, st1.
    assert (Hscore : calculate_documentation_score st1 property_id
                     = Py.Returns (f0, st1))
      by (unfold calculate_documentation_score, st1; cbn [properties];
          now rewrite Hget).
    split; [exact Hscore|].
    unfold update_compliance_item. rewrite Hfind, Hdates.
    fold item'. fold st1. now rewrite Hscore.
Qed.

Lemma find_compliance_item_Some st property_id compliance_id item :
  find_compliance_item st property_id compliance_id = Some item ->
  compliance_items st !! compliance_id = Some item
  /\ ComplianceItem.property_id item = property_id.
Proof.
  unfold find_compliance_item.
  destruct (compliance_items st !! compliance_id) as [it|]; cbn;
    [|intros H; discriminate H].
  destruct (ComplianceItem.property_id it =? property_id) eqn:Hpid;
    [|intros H; discriminate H].
  intros [= <-]. split; [reflexivity | now apply Z.eqb_eq].
Qed.

Lemma find_gap_Some st property_id gap_id gap :
  find_gap st property_id gap_id = Some gap ->
  documentation_gaps st !! gap_id = Some gap
  /\ PropertyDocumentationGap.property_id gap = property_id.
Proof.
  unfold find_gap.
  destruct (documentation_gaps st !! gap_id) as [g|]; cbn;
    [|intros H; discriminate H].
  destruct (PropertyDocumentationGap.property_id g =? property_id) eqn:Hpid;
    [|intros H; discriminate H].
  intros [= <-]. split; [reflexivity | now apply Z.eqb_eq].
Qed.

(** The detector reads the classification of the property and the names
    of its rows. *)
Lemma identify_documentation_gaps_congruence st st' property_id :
  required_items_of <$> properties st' !! property_id
  = required_items_of <$> properties st !! property_id ->
  List.map ComplianceItem.name (items_of st' property_id)
  = List.map ComplianceItem.name (items_of st property_id) ->
  fst (identify_documentation_gaps st' property_id)
  = fst (identify_documentation_gaps st property_id).
Proof.
  intros Hclass Hnames.
  destruct (properties st !! property_id) as [p|] eqn:Hget;
    destruct (properties st' !! property_id) as [p'|] eqn:Hget';
    cbn in Hclass; try discriminate.
  - injection Hclass as Hreq.
    rewrite (identify_documentation_gaps_eq st property_id p Hget),
            (identify_documentation_gaps_eq st' property_id p' Hget').
    cbv zeta. cbn [fst]. now rewrite Hnames, Hreq.
  - unfold identify_documentation_gaps. now rewrite Hget, Hget'.
Qed.

(** The calculator keeps the classification of the property. *)
Lemma calculate_documentation_score_classification
    st property_id score st' :
  calculate_documentation_score st property_id = Py.Returns (score, st') ->
  required_items_of <$> properties st' !! property_id
  = required_items_of <$> properties st !! property_id.
Proof.
  unfold calculate_documentation_score.
  destruct (properties st !! property_id) as [property_obj|] eqn:Hget;
    [|intros [= _ <-]; now rewrite Hget].
  destruct (required_items_of property_obj) as [|r rs] eqn:Hreq;
    [intros [= _ <-]; now rewrite Hget|].
  unfold Py.truediv.
  destruct (count (r :: rs) =? 0); [intros H; discriminate H|].
  intros [= _ <-]. unfold commit_property. cbn [properties].
  rewrite lookup_insert_eq. cbn.
  now rewrite required_items_of_set_score.
Qed.

(** The calculator on two databases that differ in the gap table. *)
Lemma calculate_documentation_score_gaps st gaps property_id score st0 :
  calculate_documentation_score st property_id = Py.Returns (score, st0) ->
  calculate_documentation_score
    (mkdb (properties st) (compliance_items st) gaps) property_id
  = Py.Returns (score, mkdb (properties st0) (compliance_items st0) gaps).
Proof.
  unfold calculate_documentation_score. cbn [properties].
  destruct (properties st !! property_id) as [property_obj|];
    [|now intros [= <- <-]].
  destruct (required_items_of property_obj) as [|r rs];
    [now intros [= <- <-]|].
  change (compliant_items_of
            (mkdb (properties st) (compliance_items st) gaps) property_id)
    with (compliant_items_of st property_id).
  destruct (Py.truediv _ _) as [q|e]; cbn; [|intros H; discriminate H].
  now intros [= <- <-].
Qed.

(** The state the resolution route ends in, for an object body. *)
Lemma resolve_documentation_gap_eq st property_id gap_id gap data :
  find_gap st property_id gap_id = Some gap ->
  exists score st0,
    calculate_documentation_score st property_id = Py.Returns (score, st0)
    /\ resolve_documentation_gap st property_id gap_id (Some data)
       = (Recalculated score,
          mkdb (properties st0) (compliance_items st0)
               (<[gap_id := resolve_gap gap]> (documentation_gaps st))).
Proof.
  intros Hfind.
  assert (Hreturns : exists score st0,
             calculate_documentation_score st property_id
             = Py.Returns (score, st0)).
  { destruct (properties st !! property_id) as [property_obj|] eqn:Hget.
    - destruct (calculate_documentation_score_value st property_id
                  property_obj Hget) as [st0 Hscore].
      eexists _, st0. exact Hscore.
    - exists f0, st. unfold calculate_documentation_score. now rewrite Hget. }
  destruct Hreturns as (score & st0 & Hscore).
  exists score, st0. split; [exact Hscore|].
  unfold resolve_documentation_gap. rewrite Hfind. cbv zeta.
  now rewrite (calculate_documentation_score_gaps st _ property_id score st0
                 Hscore).
Qed.

(** X16.  The two routes that address a child row, when no row has the key
    or the row belongs to another property than the one in the path, leave
    the database as it was and answer 404, or 500 when a key of the path
    does not fit a 64-bit integer.  When the row is found, the update
    route, given an object body, answers 500 without change if a date of
    the body does not parse and 200 with a score otherwise; the resolution
    route answers 500 without change if the body is not an object and 200
    with a score otherwise. *)
Theorem child_row_routes_outcomes ok st property_id row_id data body :
  let absent :=
    if fits_integer_column property_id
       && fits_integer_column (Z.of_nat row_id)
    then RowNotFound else ServerError in
  (forall item,
      compliance_items st !! row_id = Some item ->
      ComplianceItem.property_id item <> property_id ->
      update_compliance_item ok st property_id row_id data = (absent, st))
  /\ (compliance_items st !! row_id = None ->
      update_compliance_item ok st property_id row_id data = (absent, st))
  /\ (forall item,
         find_compliance_item st property_id row_id = Some item ->
         if dates_parse ok data
         then exists score st',
                update_compliance_item ok st property_id row_id data
                = (Recalculated score, st')
         else update_compliance_item ok st property_id row_id data
              = (ServerError, st))
  /\ (forall gap,
         documentation_gaps st !! row_id = Some gap ->
         PropertyDocumentationGap.property_id gap <> property_id ->
         resolve_documentation_gap st property_id row_id body = (absent, st))
  /\ (documentation_gaps st !! row_id = None ->
      resolve_documentation_gap st property_id row_id body = (absent, st))
  /\ (forall gap,
         find_gap st property_id row_id = Some gap ->
         match body with
         | Some _ =>
             exists score st',
               resolve_documentation_gap st property_id row_id body
               = (Recalculated score, st')
         | None =>
             resolve_documentation_gap st property_id row_id body
             = (ServerError, st)
         end).
Proof.
  intros absent.
  split; [|split; [|split; [|split; [|split]]]].
  - intros item Hget Hother.
    unfold update_compliance_item, find_compliance_item. rewrite Hget. cbn.
    now rewrite (proj2 (Z.eqb_neq _ _) Hother).
  - intros Hget.
    unfold update_compliance_item, find_compliance_item. now rewrite Hget.
  - intros item Hfind.
    destruct (dates_parse ok data) eqn:Hdates.
    + destruct (update_compliance_item_eq ok st property_id row_id data item
                  Hfind Hdates) as (score & st2 & _ & Hupdate).
      now exists score, st2.
    + unfold update_compliance_item. now rewrite Hfind, Hdates.
  - intros gap Hget Hother.
    unfold resolve_documentation_gap, find_gap. rewrite Hget. cbn.
    now rewrite (proj2 (Z.eqb_neq _ _) Hother).
  - intros Hget.
    unfold resolve_documentation_gap, find_gap. now rewrite Hget.
  - intros gap Hfind.
    destruct body as [data'|].
    + destruct (resolve_documentation_gap_eq st property_id row_id gap data'
                  Hfind) as (score & st0 & _ & Hresolve).
      eexists _, _. exact Hresolve.
    + unfold resolve_documentation_gap. now rewrite Hfind.
Qed.

Lemma child_row_routes_outcomes_witness :
  update_compliance_item Scenario.iso_ok Scenario.apartment_db 2 0
    Scenario.mark_compliant
  = (RowNotFound, Scenario.apartment_db)
  /\ update_compliance_item Scenario.iso_ok Scenario.apartment_db 1 0
       Scenario.bad_date
     = (ServerError, Scenario.apartment_db)
  /\ update_compliance_item Scenario.iso_ok Scenario.apartment_db (2 ^ 63) 0
       Scenario.mark_compliant
     = (ServerError, Scenario.apartment_db)
  /\ resolve_documentation_gap Scenario.office_with_gap_db 1 0 None
     = (ServerError, Scenario.office_with_gap_db).
Proof.
  pose proof (child_row_routes_outcomes Scenario.iso_ok Scenario.apartment_db
                2 0%nat Scenario.mark_compliant None) as Hother.
  pose proof (child_row_routes_outcomes Scenario.iso_ok Scenario.apartment_db
                1 0%nat Scenario.bad_date None) as Hdates.
  pose proof (child_row_routes_outcomes Scenario.iso_ok Scenario.apartment_db
                (2 ^ 63) 0%nat Scenario.mark_compliant None) as Hhuge.
  pose proof (child_row_routes_outcomes Scenario.iso_ok
                Scenario.office_with_gap_db 1 0%nat Scenario.mark_compliant
                None) as Hnull.
  cbv zeta in Hother, Hdates, Hhuge, Hnull.
  destruct Hother as (Hother & _).
  destruct Hdates as (_ & _ & Hdates & _).
  destruct Hhuge as (Hhuge & _).
  destruct Hnull as (_ & _ & _ & _ & _ & Hnull).
  split; [|split; [|split]].
  - apply (Hother (new_compliance_item 1
                     (req "Unit Electrical COC" "electrical" true)));
      [reflexivity | discriminate].
  - apply (Hdates (new_compliance_item 1
                     (req "Unit Electrical COC" "electrical" true))).
    reflexivity.
  - apply (Hhuge (new_compliance_item 1
                    (req "Unit Electrical COC" "electrical" true)));
      [reflexivity | discriminate].
  - apply (Hnull (missing_compliance_gap 1
                    (req "HVAC System COC" "mechanical" true))).
    reflexivity.
Defined.

(** X17.  What an accepted update does to the columns of the records: no
    compliance row is added or removed and every row but the one addressed
    is as before; the row addressed keeps its property, name, category,
    responsibility and requirement columns, and its flag is the one of the
    body, or its own when the body has no such key; the gap table and the
    other properties are as before, and the detector reports what it
    reported before.  The certificate number, issuing authority, dates,
    document path and [updated_at] stamp that the route also writes to the
    row addressed are not columns of the record, and nothing is stated of
    them. *)
Theorem update_changes_one_flag ok st property_id compliance_id data item :
  find_compliance_item st property_id compliance_id = Some item ->
  dates_parse ok data = true ->
  let flag :=
    match UpdateRequest.is_compliant data with
    | Some b => b
    | None => ComplianceItem.is_compliant item
    end in
  let st' :=
    snd (update_compliance_item ok st property_id compliance_id data) in
  length (compliance_items st') = length (compliance_items st)
  /\ (forall other_id, other_id <> compliance_id ->
         compliance_items st' !! other_id = compliance_items st !! other_id)
  /\ (exists item',
         compliance_items st' !! compliance_id = Some item'
         /\ ComplianceItem.is_compliant item' = flag
         /\ ComplianceItem.property_id item'
            = ComplianceItem.property_id item
         /\ ComplianceItem.name item' = ComplianceItem.name item
         /\ ComplianceItem.category item' = ComplianceItem.category item
         /\ ComplianceItem.is_individual_responsibility item'
            = ComplianceItem.is_individual_responsibility item
         /\ ComplianceItem.responsible_party item'
            = ComplianceItem.responsible_party item
         /\ ComplianceItem.is_required item'
            = ComplianceItem.is_required item)
  /\ documentation_gaps st' = documentation_gaps st
  /\ (forall other, other <> property_id ->
                    properties st' !! other = properties st !! other)
  /\ fst (identify_documentation_gaps st' property_id)
     = fst (identify_documentation_gaps st property_id).
Proof.
  intros Hfind Hdates flag st'.
  destruct (update_compliance_item_eq ok st property_id compliance_id data
              item Hfind Hdates) as (score & st2 & Hscore & Hupdate).
  cbv zeta in Hscore. unfold st'. rewrite Hupdate. cbn [snd].
  destruct (calculate_documentation_score_frame _ _ _ _ Hscore)
    as (Hitems & Hgaps & Hothers).
  pose proof (calculate_documentation_score_classification _ _ _ _ Hscore)
    as Hclass.
  cbn [properties compliance_items documentation_gaps] in *.
  destruct (find_compliance_item_Some _ _ _ _ Hfind) as [Hrow Hpid].
  assert (Hitem :
            match UpdateRequest.is_compliant data with
            | Some b => ComplianceItem.set_is_compliant item b
            | None => item
            end = ComplianceItem.set_is_compliant item flag).
  { unfold flag. destruct (UpdateRequest.is_compliant data);
      [reflexivity | now destruct item]. }
  rewrite Hitem in Hitems.
  split; [rewrite Hitems; apply length_insert|].
  split.
  { intros other_id Hother. rewrite Hitems.
    apply list_lookup_insert_ne. congruence. }
  split.
  { exists (ComplianceItem.set_is_compliant item flag).
    split; [|repeat split].
    rewrite Hitems. apply list_lookup_insert_eq.
    now apply lookup_lt_Some in Hrow. }
  split; [exact Hgaps|]. split; [exact Hothers|].
  apply identify_documentation_gaps_congruence; [exact Hclass|].
  unfold items_of. rewrite Hitems.
  now apply (filter_insert_map _ _ _ _ item).
Qed.

Lemma update_changes_one_flag_witness :
  let st' :=
    snd (update_compliance_item Scenario.iso_ok Scenario.apartment_db 1 0
           Scenario.mark_compliant) in
  length (compliance_items st') = 5%nat
  /\ exists item',
       compliance_items st' !! 0%nat = Some item'
       /\ ComplianceItem.is_compliant item' = true
       /\ ComplianceItem.name item' = "Unit Electrical COC".
Proof.
  destruct (update_changes_one_flag Scenario.iso_ok Scenario.apartment_db 1
              0%nat Scenario.mark_compliant
              (new_compliance_item 1
                 (req "Unit Electrical COC" "electrical" true))
              eq_refl eq_refl)
    as (Hlength & _ & (item' & Hrow & Hflag & _ & Hname & _) & _).
  split; [exact Hlength|].
  exists item'. split; [exact Hrow|]. split; [exact Hflag | exact Hname].
Defined.

(** X18.  The score an accepted update returns, for a property with a
    non-empty rule table, counts the compliant rows as they were, plus one
    if the row became compliant, minus one if it stopped being so, over the
    size of the rule table, times 100. *)
Theorem update_returns_recounted_score
    ok st property_id compliance_id data item property_obj :
  find_compliance_item st property_id compliance_id = Some item ->
  dates_parse ok data = true ->
  properties st !! property_id = Some property_obj ->
  required_items_of property_obj <> [] ->
  let flag :=
    match UpdateRequest.is_compliant data with
    | Some b => b
    | None => ComplianceItem.is_compliant item
    end in
  fst (update_compliance_item ok st property_id compliance_id data)
  = Recalculated
      (Py.mul_int
         (SFdiv Py.prec Py.emax
            (Py.exact
               (count (compliant_items_of st property_id)
                + Z.b2z flag - Z.b2z (ComplianceItem.is_compliant item)))
            (Py.exact (count (required_items_of property_obj))))
         100).
Proof.
  intros Hfind Hdates Hget Hne flag.
  destruct (update_compliance_item_eq ok st property_id compliance_id data
              item Hfind Hdates) as (score & st2 & Hscore & Hupdate).
  cbv zeta in Hscore. rewrite Hupdate. cbn [fst].
  rewrite (calculate_documentation_score_eq _ property_id property_obj)
    in Hscore by (try exact Hget; exact Hne).
  cbv zeta in Hscore. injection Hscore as <- _.
  destruct (find_compliance_item_Some _ _ _ _ Hfind) as [Hrow Hpid].
  unfold count at 1 3, compliant_items_of. cbn [compliance_items].
  rewrite (filter_insert_count _ _ _ item _ Hrow).
  rewrite Hpid, Z.eqb_refl. cbn [andb].
  replace ((match UpdateRequest.is_compliant data with
            | Some b => ComplianceItem.set_is_compliant item b
            | None => item
            end).(ComplianceItem.property_id) =? property_id) with true.
  2:{ symmetry. apply Z.eqb_eq.
      destruct (UpdateRequest.is_compliant data); cbn; exact Hpid. }
  cbn [andb].
  replace (ComplianceItem.is_compliant
             match UpdateRequest.is_compliant data with
             | Some b => ComplianceItem.set_is_compliant item b
             | None => item
             end) with flag
    by (unfold flag; now destruct (UpdateRequest.is_compliant data)).
  reflexivity.
Qed.

Lemma update_returns_recounted_score_witness :
  fst (update_compliance_item Scenario.iso_ok Scenario.apartment_db 1 0
         Scenario.mark_compliant)
  = Recalculated (Py.of_int 20).
Proof.
  apply (update_returns_recounted_score Scenario.iso_ok Scenario.apartment_db
           1 0%nat Scenario.mark_compliant
           (new_compliance_item 1
              (req "Unit Electrical COC" "electrical" true))
           (Sample.property SECTIONAL_TITLE_APARTMENT SECTIONAL_TITLE
              (Some TOP_FLOOR)));
    first [reflexivity | discriminate].
Defined.

(** X19.  Resolving a gap with an object body has no effect on the score:
    the route returns the score the calculator gives on the database as it
    was and stores it as the calculator would; the compliance rows and the
    other gap rows are as before; the gap row addressed keeps its property,
    type, description and severity and is marked resolved.  The resolution
    date, notes and cost that the route also writes to that row are not
    columns of the record, and nothing is stated of them. *)
Theorem resolution_leaves_score st property_id gap_id gap data :
  find_gap st property_id gap_id = Some gap ->
  exists score st0 st',
    calculate_documentation_score st property_id = Py.Returns (score, st0)
    /\ resolve_documentation_gap st property_id gap_id (Some data)
       = (Recalculated score, st')
    /\ properties st' = properties st0
    /\ compliance_items st' = compliance_items st
    /\ length (documentation_gaps st') = length (documentation_gaps st)
    /\ (forall other_id, other_id <> gap_id ->
           documentation_gaps st' !! other_id
           = documentation_gaps st !! other_id)
    /\ exists gap',
         documentation_gaps st' !! gap_id = Some gap'
         /\ PropertyDocumentationGap.is_resolved gap' = true
         /\ PropertyDocumentationGap.property_id gap'
            = PropertyDocumentationGap.property_id gap
         /\ PropertyDocumentationGap.gap_type gap'
            = PropertyDocumentationGap.gap_type gap
         /\ PropertyDocumentationGap.description gap'
            = PropertyDocumentationGap.description gap
         /\ PropertyDocumentationGap.severity gap'
            = PropertyDocumentationGap.severity gap.
Proof.
  intros Hfind.
  destruct (resolve_documentation_gap_eq st property_id gap_id gap data Hfind)
    as (score & st0 & Hscore & Hresolve).
  destruct (find_gap_Some _ _ _ _ Hfind) as [Hrow _].
  eexists score, st0, _. split; [exact Hscore|].
  split; [exact Hresolve|].
  cbn [properties compliance_items documentation_gaps].
  split; [reflexivity|].
  split; [apply (calculate_documentation_score_frame _ _ _ _ Hscore)|].
  split; [apply length_insert|].
  split.
  { intros other_id Hother. apply list_lookup_insert_ne. congruence. }
  exists (resolve_gap gap). split; [|repeat split].
  apply list_lookup_insert_eq. now apply lookup_lt_Some in Hrow.
Qed.

Lemma resolution_leaves_score_witness :
  exists score st0 st',
    calculate_documentation_score Scenario.office_with_gap_db 1
    = Py.Returns (score, st0)
    /\ resolve_documentation_gap Scenario.office_with_gap_db 1 0
         (Some Scenario.resolution)
       = (Recalculated score, st')
    /\ properties st' = properties st0.
Proof.
  destruct (resolution_leaves_score Scenario.office_with_gap_db 1 0%nat
              (missing_compliance_gap 1
                 (req "HVAC System COC" "mechanical" true))
              Scenario.resolution eq_refl)
    as (score & st0 & st' & Hscore & Hresolve & Hproperties & _).
  exists score, st0, st'. auto.
Defined.

(** X20.  Resolving a gap does not keep the detector from reporting it
    again: after the resolution, whatever the body of the request, the
    detector reports exactly what it reported before, so a requirement that
    still has no row gets a second gap row. *)
Theorem resolved_gap_is_detected_again st property_id gap_id gap data :
  find_gap st property_id gap_id = Some gap ->
  fst (identify_documentation_gaps
         (snd (resolve_documentation_gap st property_id gap_id data))
         property_id)
  = fst (identify_documentation_gaps st property_id).
Proof.
  intros Hfind.
  destruct data as [data|];
    [|unfold resolve_documentation_gap; now rewrite Hfind].
  destruct (resolve_documentation_gap_eq st property_id gap_id gap data Hfind)
    as (score & st0 & Hscore & Hresolve).
  rewrite Hresolve. cbn [snd].
  destruct (calculate_documentation_score_frame _ _ _ _ Hscore)
    as (Hitems & _ & _).
  apply identify_documentation_gaps_congruence.
  - cbn [properties].
    apply (calculate_documentation_score_classification _ _ _ _ Hscore).
  - unfold items_of. cbn [compliance_items]. now rewrite Hitems.
Qed.

Lemma resolved_gap_is_detected_again_witness :
  fst (identify_documentation_gaps
         (snd (resolve_documentation_gap Scenario.office_with_gap_db 1 0
                 (Some Scenario.resolution))) 1)
  = [ missing_compliance_gap 1 (req "HVAC System COC" "mechanical" true) ].
Proof.
  rewrite (resolved_gap_is_detected_again Scenario.office_with_gap_db 1
             0%nat
             (missing_compliance_gap 1
                (req "HVAC System COC" "mechanical" true))
             (Some Scenario.resolution) eq_refl).
  reflexivity.
Defined.

(** X21.  Resolving a gap with an object body keeps the number of gaps
    recorded for the property and raises the number of resolved ones by
    one, unless the gap was resolved already, in which case both numbers
    stay; with a body that is not an object nothing is stored. *)
Theorem resolution_counts st property_id gap_id gap data :
  find_gap st property_id gap_id = Some gap ->
  let st' :=
    snd (resolve_documentation_gap st property_id gap_id (Some data)) in
  count (gaps_of st' property_id) = count (gaps_of st property_id)
  /\ count (resolved_gaps_of st' property_id)
     = count (resolved_gaps_of st property_id)
       + (if PropertyDocumentationGap.is_resolved gap then 0 else 1)
  /\ snd (resolve_documentation_gap st property_id gap_id None) = st.
Proof.
  intros Hfind st'.
  destruct (resolve_documentation_gap_eq st property_id gap_id gap data Hfind)
    as (score & st0 & _ & Hresolve).
  unfold st'. rewrite Hresolve. cbn [snd].
  destruct (find_gap_Some _ _ _ _ Hfind) as [Hrow Hpid].
  unfold count, gaps_of, resolved_gaps_of. cbn [documentation_gaps].
  rewrite !(filter_insert_count _ _ _ gap _ Hrow).
  cbn [resolve_gap PropertyDocumentationGap.property_id
       PropertyDocumentationGap.is_resolved].
  rewrite Hpid, Z.eqb_refl. cbn [andb Z.b2z].
  split; [|split].
  - lia.
  - destruct (PropertyDocumentationGap.is_resolved gap); cbn [Z.b2z]; lia.
  - unfold resolve_documentation_gap. now rewrite Hfind.
Qed.

Lemma resolution_counts_witness :
  count (resolved_gaps_of
           (snd (resolve_documentation_gap Scenario.office_with_gap_db 1 0
                   (Some Scenario.resolution)))
           1)
  = count (resolved_gaps_of Scenario.office_with_gap_db 1) + 1.
Proof.
  apply (resolution_counts Scenario.office_with_gap_db 1 0%nat
           (missing_compliance_gap 1
              (req "HVAC System COC" "mechanical" true))
           Scenario.resolution eq_refl).
Defined.

(** The update route run again on the database it left. *)
Lemma update_compliance_item_twice
    ok st property_id compliance_id data response st' :
  update_compliance_item ok st property_id compliance_id data
  = (response, st') ->
  update_compliance_item ok st' property_id compliance_id data
  = (response, st').
Proof.
  intros Hfirst.
  destruct (find_compliance_item st property_id compliance_id)
    as [item|] eqn:Hfind.
  - destruct (dates_parse ok data) eqn:Hdates.
    + destruct (update_compliance_item_eq ok st property_id compliance_id
                  data item Hfind Hdates)
        as (score & st2 & Hscore & Hupdate).
      cbv zeta in Hscore. rewrite Hupdate in Hfirst.
      injection Hfirst as <- <-.
      destruct (calculate_documentation_score_frame _ _ _ _ Hscore)
        as (Hitems & _ & _).
      cbn [compliance_items] in Hitems.
      destruct (find_compliance_item_Some _ _ _ _ Hfind) as [Hrow Hpid].
      set (item' := match UpdateRequest.is_compliant data with
                    | Some b => ComplianceItem.set_is_compliant item b
                    | None => item
                    end) in *.
      assert (Hrow2 : compliance_items st2 !! compliance_id = Some item').
      { rewrite Hitems. apply list_lookup_insert_eq.
        now apply lookup_lt_Some in Hrow. }
      assert (Hpid' : ComplianceItem.property_id item' = property_id)
        by (unfold item'; destruct (UpdateRequest.is_compliant data);
            exact Hpid).
      assert (Hsame : match UpdateRequest.is_compliant data with
                      | Some b => ComplianceItem.set_is_compliant item' b
                      | None => item'
                      end = item')
        by (unfold item'; now destruct (UpdateRequest.is_compliant data)).
      unfold update_compliance_item, find_compliance_item.
      rewrite Hrow2. cbn. rewrite Hpid', Z.eqb_refl, Hdates, Hsame.
      rewrite (list_insert_id _ _ _ Hrow2).
      replace (mkdb (properties st2) (compliance_items st2)
                 (documentation_gaps st2)) with st2 by now destruct st2.
      now rewrite (calculate_documentation_score_again _ _ _ _ Hscore).
    + unfold update_compliance_item in Hfirst |- *.
      rewrite Hfind, Hdates in Hfirst. injection Hfirst as <- <-.
      now rewrite Hfind, Hdates.
  - unfold update_compliance_item in Hfirst |- *.
    rewrite Hfind in Hfirst. injection Hfirst as <- <-.
    now rewrite Hfind.
Qed.

(** The resolution route run again on the database it left. *)
Lemma resolve_documentation_gap_twice
    st property_id gap_id body response st' :
  resolve_documentation_gap st property_id gap_id body = (response, st') ->
  resolve_documentation_gap st' property_id gap_id body = (response, st').
Proof.
  intros Hfirst.
  destruct (find_gap st property_id gap_id) as [gap|] eqn:Hfind.
  - destruct body as [data|].
    + destruct (resolve_documentation_gap_eq st property_id gap_id gap data
                  Hfind) as (score & st0 & Hscore & Hresolve).
      rewrite Hresolve in Hfirst. injection Hfirst as <- <-.
      destruct (find_gap_Some _ _ _ _ Hfind) as [Hrow Hpid].
      set (gaps' := <[gap_id := resolve_gap gap]> (documentation_gaps st)).
      assert (Hrow2 : gaps' !! gap_id = Some (resolve_gap gap)).
      { apply list_lookup_insert_eq. now apply lookup_lt_Some in Hrow. }
      unfold resolve_documentation_gap, find_gap.
      cbn [documentation_gaps properties compliance_items].
      rewrite Hrow2. cbn. rewrite Hpid, Z.eqb_refl.
      change (resolve_gap (resolve_gap gap)) with (resolve_gap gap).
      rewrite (list_insert_id _ _ _ Hrow2).
      pose proof (calculate_documentation_score_again _ _ _ _ Hscore)
        as Hagain.
      rewrite (calculate_documentation_score_gaps st0 gaps' property_id
                 score st0 Hagain).
      reflexivity.
    + unfold resolve_documentation_gap in Hfirst |- *.
      rewrite Hfind in Hfirst. injection Hfirst as <- <-.
      now rewrite Hfind.
  - unfold resolve_documentation_gap in Hfirst |- *.
    rewrite Hfind in Hfirst. injection Hfirst as <- <-.
    now rewrite Hfind.
Qed.

(** X22.  Repeating a request to either route on the database the first
    one left gives the same answer, and leaves the columns of the records
    as they are: the properties with their stored scores, the compliance
    rows with their flags, the gap rows with their resolved marks.  The
    time stamps that each call writes again ([updated_at] of the compliance
    row, the resolution date of the gap) are not columns of the records,
    and nothing is stated of them. *)
Theorem child_row_routes_idempotent :
  (forall ok st property_id compliance_id data response st',
      update_compliance_item ok st property_id compliance_id data
      = (response, st') ->
      let again :=
        update_compliance_item ok st' property_id compliance_id data in
      fst again = response
      /\ properties (snd again) = properties st'
      /\ List.map ComplianceItem.is_compliant (compliance_items (snd again))
         = List.map ComplianceItem.is_compliant (compliance_items st')
      /\ documentation_gaps (snd again) = documentation_gaps st')
  /\ (forall st property_id gap_id body response st',
         resolve_documentation_gap st property_id gap_id body
         = (response, st') ->
         let again := resolve_documentation_gap st' property_id gap_id body in
         fst again = response
         /\ properties (snd again) = properties st'
         /\ compliance_items (snd again) = compliance_items st'
         /\ List.map PropertyDocumentationGap.is_resolved
              (documentation_gaps (snd again))
            = List.map PropertyDocumentationGap.is_resolved
                (documentation_gaps st')).
Proof.
  split.
  - intros ok st property_id compliance_id data response st' Hfirst again.
    unfold again.
    rewrite (update_compliance_item_twice _ _ _ _ _ _ _ Hfirst).
    repeat split.
  - intros st property_id gap_id body response st' Hfirst again.
    unfold again.
    rewrite (resolve_documentation_gap_twice _ _ _ _ _ _ Hfirst).
    repeat split.
Qed.

Lemma child_row_routes_idempotent_witness :
  fst (resolve_documentation_gap
         (snd (resolve_documentation_gap Scenario.office_with_gap_db 1 0
                 (Some Scenario.resolution))) 1 0 (Some Scenario.resolution))
  = fst (resolve_documentation_gap Scenario.office_with_gap_db 1 0
           (Some Scenario.resolution)).
Proof.
  destruct child_row_routes_idempotent as [_ Hresolve].
  apply (Hresolve Scenario.office_with_gap_db 1 0%nat
           (Some Scenario.resolution)
           (fst (resolve_documentation_gap Scenario.office_with_gap_db 1 0
                   (Some Scenario.resolution)))
           (snd (resolve_documentation_gap Scenario.office_with_gap_db 1 0
                   (Some Scenario.resolution)))).
  now destruct (resolve_documentation_gap _ _ _ _).
Defined.

(** ** The score as a function of the compliant rows *)

(** X23.  For a stored property with as many compliant rows as its rule
    table has entries the score is 100.0; with no compliant row and a
    non-empty rule table it is 0.0. *)
Theorem score_at_both_ends st property_id property_obj :
  properties st !! property_id = Some property_obj ->
  (count (compliant_items_of st property_id)
   = count (required_items_of property_obj) ->
   exists st',
     calculate_documentation_score st property_id
     = Py.Returns (Py.of_int 100, st'))
  /\ (count (compliant_items_of st property_id) = 0 ->
      required_items_of property_obj <> [] ->
      exists st',
        calculate_documentation_score st property_id = Py.Returns (f0, st')).
Proof.
  intros Hget.
  destruct (calculate_documentation_score_value st property_id property_obj
              Hget) as [st' Hscore].
  pose proof (rule_table_size property_obj) as Hsize.
  split.
  - intros Hall. exists st'. rewrite Hscore, Hall.
    destruct (required_items_of property_obj) as [|r rs] eqn:Hreq;
      [reflexivity|].
    destruct Hsize as [Hsize|[Hsize|Hsize]]; rewrite Hsize;
      [discriminate Hsize | reflexivity | reflexivity].
  - intros Hzero Hne. exists st'. rewrite Hscore, Hzero.
    destruct (required_items_of property_obj) as [|r rs] eqn:Hreq;
      [congruence|].
    change (count (r :: rs)) with (Z.of_nat (S (length rs))).
    now rewrite zero_ratio.
Qed.

Lemma score_at_both_ends_witness :
  exists st',
    calculate_documentation_score Sample.fresh_db 1 = Py.Returns (f0, st').
Proof.
  destruct (score_at_both_ends Sample.fresh_db 1
              (Sample.property SECTIONAL_TITLE_APARTMENT SECTIONAL_TITLE
                 (Some TOP_FLOOR)) eq_refl) as [_ Hzero].
  apply Hzero; [reflexivity | discriminate].
Defined.

(** X24.  Within the rule table the score grows strictly with the number
    of compliant rows: of two databases that hold the same property, the
    one with more compliant rows for it, and no more than the rule table
    has entries, gets the strictly higher score. *)
Theorem score_strictly_increasing st st' property_id property_obj :
  properties st !! property_id = Some property_obj ->
  properties st' !! property_id = Some property_obj ->
  count (compliant_items_of st property_id)
    < count (compliant_items_of st' property_id) ->
  count (compliant_items_of st' property_id)
    <= count (required_items_of property_obj) ->
  exists score score' s s',
    calculate_documentation_score st property_id = Py.Returns (score, s)
    /\ calculate_documentation_score st' property_id
       = Py.Returns (score', s')
    /\ SFltb score score' = true.
Proof.
  intros Hget Hget' Hlt Hle.
  destruct (calculate_documentation_score_value st property_id property_obj
              Hget) as [s Hscore].
  destruct (calculate_documentation_score_value st' property_id property_obj
              Hget') as [s' Hscore'].
  eexists _, _, s, s'. split; [exact Hscore|]. split; [exact Hscore'|].
  pose proof (rule_table_size property_obj) as Hsize.
  unfold count in Hlt, Hle, Hsize |- *.
  destruct (required_items_of property_obj) as [|r rs] eqn:Hreq.
  - cbn [length] in Hle. lia.
  - destruct Hsize as [Hsize|[Hsize|Hsize]];
      [exfalso; cbn [length] in Hsize; lia | |];
      rewrite Hsize in *;
      destruct (length (compliant_items_of st property_id))
        as [|[|[|[|[|n]]]]];
      destruct (length (compliant_items_of st' property_id))
        as [|[|[|[|[|[|n']]]]]];
      first [lia | reflexivity].
Qed.

Lemma score_strictly_increasing_witness :
  exists score score' s s',
    calculate_documentation_score Sample.single_row_db 1
    = Py.Returns (score, s)
    /\ calculate_documentation_score Sample.hospital_db 1
       = Py.Returns (score', s')
    /\ SFltb score score' = true.
Proof.
  apply (score_strictly_increasing Sample.single_row_db Sample.hospital_db 1
           (Sample.property HOSPITAL INDIVIDUAL None));
    first [reflexivity | vm_compute; congruence].
Defined.

(** ** The databases the routes produce (claim C1) *)















(** ** Exponents of binary64 results *)























(** ** The breakdown of the read endpoint against the score (claim C9) *)



